(** * The lantern extendedness filter

    A shallow embedding of [evaluate] and [_ellipticity] from
    [filters/extendedness.py] and [src/lantern/filters/extendedness.py].
    The two files hold the same algorithm; the first writes its thresholds
    as literals next to the module-level dict [BAND_FLUX_THRESHOLDS], the
    second reads them from the module-level dict [thresholds].

    Modelling choices.
    - A Python float is a binary64 number: the primitive [float], with its
      NaN, its infinities, its signed zeros and its rounding.  The float
      operators follow CPython: [/] raises [ZeroDivisionError] on a zero
      divisor, [math.sqrt] raises [ValueError] below zero, [x ** 2] raises
      [OverflowError] when the square of a finite [x] is infinite, and
      [+], [-], [*] never raise.  The square [x ** 2] is taken as the
      correctly rounded product [x * x].
    - Python is dynamically typed.  A dict holds values ([None], bools,
      floats, strings); a subscript checks no type, and each operator
      decides at run time: a bool counts as the number 1.0 or 0.0, a
      comparison or an arithmetic operator on [None] or on a string raises
      [TypeError], [==] answers [False] there, and [any] takes the truth
      value of whatever it is given.  Python integers other than bools are
      not among the values; the integer floor [5] of the second file is the
      float 5.0 it compares equal to.
    - The alert properties are a Python dict: a [gmap string value].
    - [evaluate] runs in a state-and-exception monad over a store that
      holds the two objects the function can reach: the dict it is given
      and the module-level thresholds.  A subscript on a missing key
      raises [KeyError].
    - Python returns [None] on rejection: [evaluate] returns an
      [option]. *)

From Stdlib Require Import ZArith Floats Lia.
From stdpp Require Import base option gmap strings list.

Local Open Scope float_scope.
Set Warnings "-inexact-float".

(** ** Values, exceptions, store *)

(** The Python values an alert dict holds. *)
Inductive value : Type :=
  | VNone
  | VBool (b : bool)
  | VNum (x : float)
  | VStr (s : string).

Inductive exn : Type :=
  | KeyError (key : string)
  | TypeError
  | ZeroDivisionError
  | ValueError
  | OverflowError.

Inductive result (A : Type) : Type :=
  | Ok (a : A)
  | Raise (e : exn).
Arguments Ok {A} a.
Arguments Raise {A} e.

(** The thresholds.  In [src/lantern/filters/extendedness.py] they are the
    entries "snr", "flux_ext", "i_ext", "ellip_ext", "temp_sci_flux_ratio"
    and "flux_caps" of [thresholds]; in [filters/extendedness.py] the five
    floors are literals and the caps are [BAND_FLUX_THRESHOLDS]. *)
Record Config : Type := {
  snr_floor : float;
  flux_ext_floor : float;
  i_ext_floor : float;
  ellip_ext_floor : float;
  temp_sci_flux_ratio_floor : float;
  flux_caps : gmap string float
}.

Record store : Type := Store {
  props : gmap string value;
  thresholds : Config
}.

(** ** The monad *)

Definition M (A : Type) : Type := store → result A * store.

#[global] Instance M_ret : MRet M := λ A a σ, (Ok a, σ).

#[global] Instance M_bind : MBind M := λ A B k m σ,
  match m σ with
  | (Ok a, σ') => k a σ'
  | (Raise e, σ') => (Raise e, σ')
  end.

Definition raise {A : Type} (e : exn) : M A := λ σ, (Raise e, σ).

(** [a and b] on two comparisons: [b] is evaluated only when [a] holds. *)
Definition and_then (a b : M bool) : M bool :=
  a ≫= λ x : bool, if x then b else mret false.

(** ** The operators of Python *)

(** [props[key]] *)
Definition subscript (key : string) : M value := λ σ,
  match props σ !! key with
  | Some v => (Ok v, σ)
  | None => (Raise (KeyError key), σ)
  end.

(** A read of one of the floors. *)
Definition read_threshold (field : Config → float) : M float := λ σ,
  (Ok (field (thresholds σ)), σ).

(** [flux_caps.get(band)]: the keys of the caps are strings, so any other
    value finds nothing. *)
Definition flux_caps_get (band : value) : M (option float) := λ σ,
  (Ok (match band with
       | VStr b => flux_caps (thresholds σ) !! b
       | _ => None
       end), σ).

(** The number a value counts as in arithmetic and in comparisons. *)
Definition as_number (v : value) : option float :=
  match v with
  | VNum x => Some x
  | VBool b => Some (if b then 1 else 0)
  | VNone | VStr _ => None
  end.

(** [bool(v)] *)
Definition truthy (v : value) : bool :=
  match v with
  | VNone => false
  | VBool b => b
  | VNum x => negb (x =? 0)
  | VStr s => match s with EmptyString => false | String _ _ => true end
  end.

(** [v > c], [v < c], [v <= c], [v >= c] against a float *)
Definition py_gt (v : value) (c : float) : M bool :=
  match as_number v with
  | Some x => mret (c <? x)
  | None => raise TypeError
  end.

Definition py_lt (v : value) (c : float) : M bool :=
  match as_number v with
  | Some x => mret (x <? c)
  | None => raise TypeError
  end.

Definition py_le (v : value) (c : float) : M bool :=
  match as_number v with
  | Some x => mret (x <=? c)
  | None => raise TypeError
  end.

Definition py_ge (v : value) (c : float) : M bool :=
  match as_number v with
  | Some x => mret (c <=? x)
  | None => raise TypeError
  end.

(** [v == c] against a float: never raises. *)
Definition py_eq (v : value) (c : float) : bool :=
  match as_number v with
  | Some x => x =? c
  | None => false
  end.

(** [v + w]: the sum of two numbers, or two strings joined. *)
Definition py_add (v w : value) : M value :=
  match as_number v, as_number w with
  | Some x, Some y => mret (VNum (x + y))
  | _, _ =>
      match v, w with
      | VStr s, VStr t => mret (VStr (s ++ t))
      | _, _ => raise TypeError
      end
  end.

(** [v - w] *)
Definition py_sub (v w : value) : M float :=
  match as_number v, as_number w with
  | Some x, Some y => mret (x - y)
  | _, _ => raise TypeError
  end.

(** [v / w] *)
Definition py_div (v w : value) : M float :=
  match as_number v, as_number w with
  | Some x, Some y =>
      if y =? 0 then raise ZeroDivisionError else mret (x / y)
  | _, _ => raise TypeError
  end.

(** The square of a finite number is infinite. *)
Definition overflows (x : float) : bool :=
  is_finite x && is_infinity (x * x).

(** [v ** 2] *)
Definition py_pow2 (v : value) : M float :=
  match as_number v with
  | Some x => if overflows x then raise OverflowError else mret (x * x)
  | None => raise TypeError
  end.

(** [math.sqrt(x)] on a float *)
Definition py_sqrt (x : float) : M float :=
  if x <? 0 then raise ValueError else mret (sqrt x).

(** [any(l)] *)
Definition any (l : list value) : bool := existsb truthy l.

(** ** The program *)

Definition _ellipticity (ixx iyy ixy : value) : M float :=
  denom ← py_add ixx iyy;
  if py_eq denom 0.0 then mret 0.0
  else
    diff ← py_sub ixx iyy;
    diff2 ← py_pow2 (VNum diff);
    ixy2 ← py_pow2 ixy;
    root ← py_sqrt (diff2 + 4.0 * ixy2);
    py_div (VNum root) denom.

Definition evaluate : M (option (gmap string value)) :=
  psf_flux ← subscript "lsst_diaSource_psfFlux";
  ap_flux ← subscript "lsst_diaSource_apFlux";
  science_flux ← subscript "lsst_diaSource_scienceFlux";
  template_flux ← subscript "lsst_diaSource_templateFlux";
  snr ← subscript "lsst_diaSource_snr";
  band ← subscript "lsst_diaSource_band";
  ixx ← subscript "lsst_diaSource_ixx";
  iyy ← subscript "lsst_diaSource_iyy";
  ixy ← subscript "lsst_diaSource_ixy";
  ixx_psf ← subscript "lsst_diaSource_ixxPSF";
  iyy_psf ← subscript "lsst_diaSource_iyyPSF";
  ixy_psf ← subscript "lsst_diaSource_ixyPSF";
  (* Quality cuts *)
  all_pos ← and_then (and_then (py_gt psf_flux 0.0) (py_gt ap_flux 0.0))
                     (py_gt science_flux 0.0);
  all_neg ← and_then (and_then (py_lt psf_flux 0.0) (py_lt ap_flux 0.0))
                     (py_lt science_flux 0.0);
  apFlux_flag ← subscript "lsst_diaSource_apFlux_flag";
  psfFlux_flag ← subscript "lsst_diaSource_psfFlux_flag";
  pixelFlags_cr ← subscript "lsst_diaSource_pixelFlags_cr";
  pixelFlags_bad ← subscript "lsst_diaSource_pixelFlags_bad";
  pixelFlags_nodata ← subscript "lsst_diaSource_pixelFlags_nodata";
  pixelFlags_interpolated ← subscript "lsst_diaSource_pixelFlags_interpolated";
  pixelFlags_saturated ← subscript "lsst_diaSource_pixelFlags_saturated";
  pixelFlags_suspect ← subscript "lsst_diaSource_pixelFlags_suspect";
  t_snr ← read_threshold snr_floor;
  snr_low ← py_le snr t_snr;
  if any [apFlux_flag; psfFlux_flag; pixelFlags_cr; pixelFlags_bad;
          pixelFlags_nodata; pixelFlags_interpolated; pixelFlags_saturated;
          pixelFlags_suspect;
          VBool snr_low;
          VBool (negb (all_pos || all_neg))]
  then mret None else
  (* Extendedness cuts: ensure no division by zero *)
  if py_eq psf_flux 0.0 || py_eq science_flux 0.0
  then mret None else
  psf_trace ← py_add ixx_psf iyy_psf;
  if py_eq psf_trace 0.0 then mret None else
  (* engineered extendedness features *)
  flux_ext ← py_div ap_flux psf_flux;
  e_source ← _ellipticity ixx iyy ixy;
  e_psf ← _ellipticity ixx_psf iyy_psf ixy_psf;
  let ellip_ext := e_source - e_psf in
  trace ← py_add ixx iyy;
  i_ext ← py_div trace psf_trace;
  temp_sci_flux_ratio ← py_div template_flux science_flux;
  (* cuts *)
  t_flux_ext ← read_threshold flux_ext_floor;
  t_i_ext ← read_threshold i_ext_floor;
  t_ellip_ext ← read_threshold ellip_ext_floor;
  if (flux_ext <=? t_flux_ext) || (i_ext <=? t_i_ext)
     || (ellip_ext <=? t_ellip_ext)
  then mret None else
  (* Moving object cut *)
  t_ratio ← read_threshold temp_sci_flux_ratio_floor;
  if temp_sci_flux_ratio <=? t_ratio then mret None else
  (* Per-band template flux cut *)
  threshold ← flux_caps_get band;
  match threshold with
  | None => mret true
  | Some t => py_ge template_flux t
  end ≫= λ above : bool,
  if above then mret None else
  mret (Some {[ "snr" := snr;
                "flux_ext" := VNum flux_ext;
                "i_ext" := VNum i_ext;
                "ellip_ext" := VNum ellip_ext;
                "temp_sci_flux_ratio" := VNum temp_sci_flux_ratio ]}).

(** [evaluate] with the flux branch of the degeneracy guard left out: the
    lines [if psf_flux == 0.0 or science_flux == 0.0: return None] are
    gone, everything else is as in [evaluate]. *)
Definition evaluate_without_flux_branch : M (option (gmap string value)) :=
  psf_flux ← subscript "lsst_diaSource_psfFlux";
  ap_flux ← subscript "lsst_diaSource_apFlux";
  science_flux ← subscript "lsst_diaSource_scienceFlux";
  template_flux ← subscript "lsst_diaSource_templateFlux";
  snr ← subscript "lsst_diaSource_snr";
  band ← subscript "lsst_diaSource_band";
  ixx ← subscript "lsst_diaSource_ixx";
  iyy ← subscript "lsst_diaSource_iyy";
  ixy ← subscript "lsst_diaSource_ixy";
  ixx_psf ← subscript "lsst_diaSource_ixxPSF";
  iyy_psf ← subscript "lsst_diaSource_iyyPSF";
  ixy_psf ← subscript "lsst_diaSource_ixyPSF";
  all_pos ← and_then (and_then (py_gt psf_flux 0.0) (py_gt ap_flux 0.0))
                     (py_gt science_flux 0.0);
  all_neg ← and_then (and_then (py_lt psf_flux 0.0) (py_lt ap_flux 0.0))
                     (py_lt science_flux 0.0);
  apFlux_flag ← subscript "lsst_diaSource_apFlux_flag";
  psfFlux_flag ← subscript "lsst_diaSource_psfFlux_flag";
  pixelFlags_cr ← subscript "lsst_diaSource_pixelFlags_cr";
  pixelFlags_bad ← subscript "lsst_diaSource_pixelFlags_bad";
  pixelFlags_nodata ← subscript "lsst_diaSource_pixelFlags_nodata";
  pixelFlags_interpolated ← subscript "lsst_diaSource_pixelFlags_interpolated";
  pixelFlags_saturated ← subscript "lsst_diaSource_pixelFlags_saturated";
  pixelFlags_suspect ← subscript "lsst_diaSource_pixelFlags_suspect";
  t_snr ← read_threshold snr_floor;
  snr_low ← py_le snr t_snr;
  if any [apFlux_flag; psfFlux_flag; pixelFlags_cr; pixelFlags_bad;
          pixelFlags_nodata; pixelFlags_interpolated; pixelFlags_saturated;
          pixelFlags_suspect;
          VBool snr_low;
          VBool (negb (all_pos || all_neg))]
  then mret None else
  psf_trace ← py_add ixx_psf iyy_psf;
  if py_eq psf_trace 0.0 then mret None else
  flux_ext ← py_div ap_flux psf_flux;
  e_source ← _ellipticity ixx iyy ixy;
  e_psf ← _ellipticity ixx_psf iyy_psf ixy_psf;
  let ellip_ext := e_source - e_psf in
  trace ← py_add ixx iyy;
  i_ext ← py_div trace psf_trace;
  temp_sci_flux_ratio ← py_div template_flux science_flux;
  t_flux_ext ← read_threshold flux_ext_floor;
  t_i_ext ← read_threshold i_ext_floor;
  t_ellip_ext ← read_threshold ellip_ext_floor;
  if (flux_ext <=? t_flux_ext) || (i_ext <=? t_i_ext)
     || (ellip_ext <=? t_ellip_ext)
  then mret None else
  t_ratio ← read_threshold temp_sci_flux_ratio_floor;
  if temp_sci_flux_ratio <=? t_ratio then mret None else
  threshold ← flux_caps_get band;
  match threshold with
  | None => mret true
  | Some t => py_ge template_flux t
  end ≫= λ above : bool,
  if above then mret None else
  mret (Some {[ "snr" := snr;
                "flux_ext" := VNum flux_ext;
                "i_ext" := VNum i_ext;
                "ellip_ext" := VNum ellip_ext;
                "temp_sci_flux_ratio" := VNum temp_sci_flux_ratio ]}).

(** ** The shipped thresholds *)

(** [filters/extendedness.py] *)
Definition BAND_FLUX_THRESHOLDS : gmap string float :=
  {[ "u" := 178286.7; "g" := 255131.4; "r" := 657111.2;
     "i" := 743053.0; "z" := 963585.1; "y" := 1013290.7 ]}.

Definition filters_thresholds : Config := {|
  snr_floor := 15.0;
  flux_ext_floor := 1.259;
  i_ext_floor := 1.5;
  ellip_ext_floor := 0.2;
  temp_sci_flux_ratio_floor := 0.25;
  flux_caps := BAND_FLUX_THRESHOLDS
|}.

(** [src/lantern/filters/extendedness.py] *)
Definition lantern_thresholds : Config := {|
  snr_floor := 5;
  flux_ext_floor := 0.35;
  i_ext_floor := 0.5;
  ellip_ext_floor := 0.2;
  temp_sci_flux_ratio_floor := 0.85;
  flux_caps :=
    {[ "u" := 88644.7; "g" := 118074.2; "r" := 166872.5;
       "i" := 203090.9; "z" := 257254.0; "y" := 264794.0 ]}
|}.

(** ** Well-formed inputs *)

(** The fields of one alert, typed as the input contract types them.  The
    band is left a value: [evaluate] only uses it as a key. *)
Record AlertProperties : Type := {
  psfFlux : float;
  apFlux : float;
  scienceFlux : float;
  templateFlux : float;
  snr : float;
  band : value;
  ixx : float;
  iyy : float;
  ixy : float;
  ixxPSF : float;
  iyyPSF : float;
  ixyPSF : float;
  apFlux_flag : bool;
  psfFlux_flag : bool;
  pixelFlags_cr : bool;
  pixelFlags_bad : bool;
  pixelFlags_nodata : bool;
  pixelFlags_interpolated : bool;
  pixelFlags_saturated : bool;
  pixelFlags_suspect : bool
}.

(** The twenty keys [evaluate] subscripts, in the order it does. *)
Definition required_fields : list string :=
  [ "lsst_diaSource_psfFlux"; "lsst_diaSource_apFlux";
    "lsst_diaSource_scienceFlux"; "lsst_diaSource_templateFlux";
    "lsst_diaSource_snr"; "lsst_diaSource_band";
    "lsst_diaSource_ixx"; "lsst_diaSource_iyy"; "lsst_diaSource_ixy";
    "lsst_diaSource_ixxPSF"; "lsst_diaSource_iyyPSF"; "lsst_diaSource_ixyPSF";
    "lsst_diaSource_apFlux_flag"; "lsst_diaSource_psfFlux_flag";
    "lsst_diaSource_pixelFlags_cr"; "lsst_diaSource_pixelFlags_bad";
    "lsst_diaSource_pixelFlags_nodata";
    "lsst_diaSource_pixelFlags_interpolated";
    "lsst_diaSource_pixelFlags_saturated";
    "lsst_diaSource_pixelFlags_suspect" ].

(** The dict [p] holds the alert [a]: every required key is present with
    a value of its kind.  Other keys of [p] are free. *)
Record has_fields (p : gmap string value) (a : AlertProperties) : Prop := {
  hf_psfFlux : p !! "lsst_diaSource_psfFlux" = Some (VNum (psfFlux a));
  hf_apFlux : p !! "lsst_diaSource_apFlux" = Some (VNum (apFlux a));
  hf_scienceFlux : p !! "lsst_diaSource_scienceFlux" = Some (VNum (scienceFlux a));
  hf_templateFlux : p !! "lsst_diaSource_templateFlux" = Some (VNum (templateFlux a));
  hf_snr : p !! "lsst_diaSource_snr" = Some (VNum (snr a));
  hf_band : p !! "lsst_diaSource_band" = Some (band a);
  hf_ixx : p !! "lsst_diaSource_ixx" = Some (VNum (ixx a));
  hf_iyy : p !! "lsst_diaSource_iyy" = Some (VNum (iyy a));
  hf_ixy : p !! "lsst_diaSource_ixy" = Some (VNum (ixy a));
  hf_ixxPSF : p !! "lsst_diaSource_ixxPSF" = Some (VNum (ixxPSF a));
  hf_iyyPSF : p !! "lsst_diaSource_iyyPSF" = Some (VNum (iyyPSF a));
  hf_ixyPSF : p !! "lsst_diaSource_ixyPSF" = Some (VNum (ixyPSF a));
  hf_apFlux_flag : p !! "lsst_diaSource_apFlux_flag" = Some (VBool (apFlux_flag a));
  hf_psfFlux_flag : p !! "lsst_diaSource_psfFlux_flag" = Some (VBool (psfFlux_flag a));
  hf_cr : p !! "lsst_diaSource_pixelFlags_cr" = Some (VBool (pixelFlags_cr a));
  hf_bad : p !! "lsst_diaSource_pixelFlags_bad" = Some (VBool (pixelFlags_bad a));
  hf_nodata : p !! "lsst_diaSource_pixelFlags_nodata" = Some (VBool (pixelFlags_nodata a));
  hf_interpolated :
    p !! "lsst_diaSource_pixelFlags_interpolated" = Some (VBool (pixelFlags_interpolated a));
  hf_saturated :
    p !! "lsst_diaSource_pixelFlags_saturated" = Some (VBool (pixelFlags_saturated a));
  hf_suspect : p !! "lsst_diaSource_pixelFlags_suspect" = Some (VBool (pixelFlags_suspect a))
}.

(** The dict with exactly the twenty fields of [a]. *)
Definition to_props (a : AlertProperties) : gmap string value :=
  list_to_map
  [ ("lsst_diaSource_psfFlux", VNum (psfFlux a));
    ("lsst_diaSource_apFlux", VNum (apFlux a));
    ("lsst_diaSource_scienceFlux", VNum (scienceFlux a));
    ("lsst_diaSource_templateFlux", VNum (templateFlux a));
    ("lsst_diaSource_snr", VNum (snr a));
    ("lsst_diaSource_band", band a);
    ("lsst_diaSource_ixx", VNum (ixx a));
    ("lsst_diaSource_iyy", VNum (iyy a));
    ("lsst_diaSource_ixy", VNum (ixy a));
    ("lsst_diaSource_ixxPSF", VNum (ixxPSF a));
    ("lsst_diaSource_iyyPSF", VNum (iyyPSF a));
    ("lsst_diaSource_ixyPSF", VNum (ixyPSF a));
    ("lsst_diaSource_apFlux_flag", VBool (apFlux_flag a));
    ("lsst_diaSource_psfFlux_flag", VBool (psfFlux_flag a));
    ("lsst_diaSource_pixelFlags_cr", VBool (pixelFlags_cr a));
    ("lsst_diaSource_pixelFlags_bad", VBool (pixelFlags_bad a));
    ("lsst_diaSource_pixelFlags_nodata", VBool (pixelFlags_nodata a));
    ("lsst_diaSource_pixelFlags_interpolated", VBool (pixelFlags_interpolated a));
    ("lsst_diaSource_pixelFlags_saturated", VBool (pixelFlags_saturated a));
    ("lsst_diaSource_pixelFlags_suspect", VBool (pixelFlags_suspect a)) ].

(** ** The design of section 4, in the words of the specification *)

(** Section 4.1: the ellipticity of the second moments, as the formula
    reads in binary64 arithmetic. *)
Definition ellipticity (ixx iyy ixy : float) : float :=
  if ixx + iyy =? 0 then 0
  else sqrt ((ixx - iyy) * (ixx - iyy) + 4 * (ixy * ixy)) / (ixx + iyy).

(** Section 4.2, step 3: the engineered features. *)
Definition flux_ext (a : AlertProperties) : float := apFlux a / psfFlux a.

Definition ellip_ext (a : AlertProperties) : float :=
  ellipticity (ixx a) (iyy a) (ixy a)
  - ellipticity (ixxPSF a) (iyyPSF a) (ixyPSF a).

Definition i_ext (a : AlertProperties) : float :=
  (ixx a + iyy a) / (ixxPSF a + iyyPSF a).

Definition temp_sci_flux_ratio (a : AlertProperties) : float :=
  templateFlux a / scienceFlux a.

(** Step 7: the result of a pass. *)
Definition features (a : AlertProperties) : gmap string value :=
  {[ "snr" := VNum (snr a);
     "flux_ext" := VNum (flux_ext a);
     "i_ext" := VNum (i_ext a);
     "ellip_ext" := VNum (ellip_ext a);
     "temp_sci_flux_ratio" := VNum (temp_sci_flux_ratio a) ]}.

Definition any_flag (a : AlertProperties) : bool :=
  apFlux_flag a || psfFlux_flag a || pixelFlags_cr a || pixelFlags_bad a
  || pixelFlags_nodata a || pixelFlags_interpolated a
  || pixelFlags_saturated a || pixelFlags_suspect a.

Definition all_pos (a : AlertProperties) : bool :=
  (0 <? psfFlux a) && (0 <? apFlux a) && (0 <? scienceFlux a).

Definition all_neg (a : AlertProperties) : bool :=
  (psfFlux a <? 0) && (apFlux a <? 0) && (scienceFlux a <? 0).

(** Each cut is a predicate of the thresholds and the alert; [true] means
    that the alert passes the cut, that is, that the condition under which
    the step rejects is false. *)
Definition cut : Type := Config → AlertProperties → bool.

(** Step 1 *)
Definition quality_gate : cut := λ cfg a,
  negb (any_flag a) && negb (snr a <=? snr_floor cfg)
  && (all_pos a || all_neg a).

(** Step 2 *)
Definition degeneracy_guard : cut := λ cfg a,
  negb (psfFlux a =? 0) && negb (scienceFlux a =? 0)
  && negb (ixxPSF a + iyyPSF a =? 0).

(** Step 4 *)
Definition flux_ext_cut : cut := λ cfg a,
  negb (flux_ext a <=? flux_ext_floor cfg).

Definition i_ext_cut : cut := λ cfg a,
  negb (i_ext a <=? i_ext_floor cfg).

Definition ellip_ext_cut : cut := λ cfg a,
  negb (ellip_ext a <=? ellip_ext_floor cfg).

(** Step 5 *)
Definition moving_object_cut : cut := λ cfg a,
  negb (temp_sci_flux_ratio a <=? temp_sci_flux_ratio_floor cfg).

(** Step 6 *)
Definition cap_of (cfg : Config) (b : value) : option float :=
  match b with
  | VStr s => flux_caps cfg !! s
  | _ => None
  end.

Definition band_cap_cut : cut := λ cfg a,
  match cap_of cfg (band a) with
  | Some c => negb (c <=? templateFlux a)
  | None => false
  end.

(** The cuts, in the order of section 4. *)
Definition cuts : list cut :=
  [ quality_gate; degeneracy_guard; flux_ext_cut; i_ext_cut; ellip_ext_cut;
    moving_object_cut; band_cap_cut ].

(** The logical AND of a list of cuts. *)
Definition all_hold (l : list cut) (cfg : Config) (a : AlertProperties) : bool :=
  forallb (λ c : cut, c cfg a) l.

(** ** Squares that overflow *)

(** The helper raises [OverflowError] on these moments: the trace is not
    zero and one of the two squares overflows. *)
Definition helper_overflows (ixx iyy ixy : float) : bool :=
  negb (ixx + iyy =? 0) && (overflows (ixx - iyy) || overflows ixy).

Definition squares_overflow (a : AlertProperties) : bool :=
  helper_overflows (ixx a) (iyy a) (ixy a)
  || helper_overflows (ixxPSF a) (iyyPSF a) (ixyPSF a).

(** [evaluate] reaches a helper call that overflows: the quality gate and
    the degeneracy guard let the alert through to the features. *)
Definition reaches_overflow (cfg : Config) (a : AlertProperties) : bool :=
  quality_gate cfg a && degeneracy_guard cfg a && squares_overflow a.

(** What [evaluate] answers on the dict of a typed alert. *)
Definition outcome (cfg : Config) (a : AlertProperties)
  : result (option (gmap string value)) :=
  if quality_gate cfg a && degeneracy_guard cfg a then
    if squares_overflow a then Raise OverflowError
    else Ok (if flux_ext_cut cfg a && i_ext_cut cfg a && ellip_ext_cut cfg a
                && moving_object_cut cfg a && band_cap_cut cfg a
             then Some (features a) else None)
  else Ok None.

(** ** Read-only computations *)

(** [m] returns the store it was given, whatever it answers. *)
Definition read_only {A : Type} (m : M A) : Prop := ∀ σ, (m σ).2 = σ.

(** ** Caller errors *)

(** The exceptions that report a broken input contract. *)
Definition caller_error (e : exn) : Prop :=
  match e with
  | KeyError _ | TypeError => True
  | ZeroDivisionError | ValueError | OverflowError => False
  end.

(** The exceptions of a division by zero and of a square root below
    zero. *)
Definition domain_error (e : exn) : Prop :=
  e = ZeroDivisionError ∨ e = ValueError.

(** Every exception [m] can raise satisfies [P]. *)
Definition raises_only {A : Type} (P : exn → Prop) (m : M A) : Prop :=
  ∀ σ e, (m σ).1 = Raise e → P e.

(** ** Kinds of fields *)

(** The eleven keys the input contract types as numbers and the eight it
    types as flags; the band is the one key of neither list. *)
Definition numeric_fields : list string :=
  [ "lsst_diaSource_psfFlux"; "lsst_diaSource_apFlux";
    "lsst_diaSource_scienceFlux"; "lsst_diaSource_templateFlux";
    "lsst_diaSource_snr";
    "lsst_diaSource_ixx"; "lsst_diaSource_iyy"; "lsst_diaSource_ixy";
    "lsst_diaSource_ixxPSF"; "lsst_diaSource_iyyPSF"; "lsst_diaSource_ixyPSF" ].

Definition flag_fields : list string :=
  [ "lsst_diaSource_apFlux_flag"; "lsst_diaSource_psfFlux_flag";
    "lsst_diaSource_pixelFlags_cr"; "lsst_diaSource_pixelFlags_bad";
    "lsst_diaSource_pixelFlags_nodata";
    "lsst_diaSource_pixelFlags_interpolated";
    "lsst_diaSource_pixelFlags_saturated";
    "lsst_diaSource_pixelFlags_suspect" ].

(** The key is present in [p] with a value of its kind. *)
Definition well_typed_at (p : gmap string value) (key : string) : Prop :=
  is_Some (p !! key)
  ∧ (key ∈ numeric_fields → ∃ x, p !! key = Some (VNum x))
  ∧ (key ∈ flag_fields → ∃ b, p !! key = Some (VBool b)).

(** ** Computations that answer alike on two stores *)

Definition same_answer {A : Type} (m : M A) (σ σ' : store) : Prop :=
  (m σ).1 = (m σ').1.

(** ** An order on thresholds *)

(** [tight] asks at least as much as [loose]: every floor is at least as
    high, and every band [tight] knows is known to [loose] with a cap at
    least as high. *)
Definition tighter (tight loose : Config) : Prop :=
  (snr_floor loose <=? snr_floor tight) = true
  ∧ (flux_ext_floor loose <=? flux_ext_floor tight) = true
  ∧ (i_ext_floor loose <=? i_ext_floor tight) = true
  ∧ (ellip_ext_floor loose <=? ellip_ext_floor tight) = true
  ∧ (temp_sci_flux_ratio_floor loose <=? temp_sci_flux_ratio_floor tight) = true
  ∧ ∀ (b : string) (c : float), flux_caps tight !! b = Some c →
      ∃ c', flux_caps loose !! b = Some c' ∧ (c <=? c') = true.

(** The lower floor and the higher cap of the two shipped thresholds. *)
Definition loosest_thresholds : Config := {|
  snr_floor := 5;
  flux_ext_floor := 0.35;
  i_ext_floor := 0.5;
  ellip_ext_floor := 0.2;
  temp_sci_flux_ratio_floor := 0.25;
  flux_caps := BAND_FLUX_THRESHOLDS
|}.

(** ** Signs of binary64 numbers *)

(** Not negative: the sign bit is clear, or the number is a zero or NaN. *)
Definition SFnonneg (f : spec_float) : Prop :=
  match f with
  | S754_nan | S754_zero _ => True
  | S754_infinity s | S754_finite s _ _ => s = false
  end.

(** ** Sample alerts *)

(** A call of [evaluate] on the dict of [a] under the thresholds [cfg]. *)
Definition call (cfg : Config) (a : AlertProperties) : store :=
  Store (to_props a) cfg.

(** An alert with the flags and the PSF of the end-to-end example of the
    specification (snr 20, PSF moments 2, 2, 0, ixy 1, no flag but the
    saturation flag), free in its fluxes, its band and its moments ixx and
    iyy. *)
Definition alert (psf ap sci tmpl : float) (b : value) (saturated : bool)
    (xx yy : float) : AlertProperties := {|
  psfFlux := psf;
  apFlux := ap;
  scienceFlux := sci;
  templateFlux := tmpl;
  snr := 20;
  band := b;
  ixx := xx;
  iyy := yy;
  ixy := 1;
  ixxPSF := 2;
  iyyPSF := 2;
  ixyPSF := 0;
  apFlux_flag := false;
  psfFlux_flag := false;
  pixelFlags_cr := false;
  pixelFlags_bad := false;
  pixelFlags_nodata := false;
  pixelFlags_interpolated := false;
  pixelFlags_saturated := saturated;
  pixelFlags_suspect := false
|}.

(** The end-to-end example of section 8, and its negative twin. *)
Definition spec_example : AlertProperties :=
  alert 100 200 500 200 (VStr "r") false 5 3.

Definition spec_example_saturated : AlertProperties :=
  alert 100 200 500 200 (VStr "r") true 5 3.

(** An alert that passes under both shipped thresholds, and its twin with
    negative fluxes. *)
Definition bright_alert : AlertProperties :=
  alert 100 200 500 450 (VStr "r") false 5 3.

Definition negative_alert : AlertProperties :=
  alert (-100) (-200) (-500) (-450) (VStr "r") false 5 3.

(** An alert whose aperture flux disagrees in sign with the other two. *)
Definition mixed_sign_alert : AlertProperties :=
  alert 100 (-200) 500 450 (VStr "r") false 5 3.


(** The end-to-end example with ixx = 1e200: the square of ixx - iyy is
    beyond the largest float. *)
Definition overflow_alert : AlertProperties :=
  alert 100 200 500 200 (VStr "r") false 1e200 3.


(** An alert whose PSF moments have trace zero. *)
Definition zero_trace_alert : AlertProperties := {|
  psfFlux := 100; apFlux := 200; scienceFlux := 500; templateFlux := 450;
  snr := 20; band := VStr "r";
  ixx := 5; iyy := 3; ixy := 1;
  ixxPSF := 2; iyyPSF := -2; ixyPSF := 0;
  apFlux_flag := false; psfFlux_flag := false; pixelFlags_cr := false;
  pixelFlags_bad := false; pixelFlags_nodata := false;
  pixelFlags_interpolated := false; pixelFlags_saturated := false;
  pixelFlags_suspect := false
|}.

(** The dict of the end-to-end example without its snr. *)
Definition snr_missing : store :=
  Store (delete "lsst_diaSource_snr" (to_props spec_example)) filters_thresholds.

(** The dict of the end-to-end example with one more key. *)
Definition spec_example_extended : store :=
  Store (<["lsst_diaSource_ra" := VNum 150]> (to_props spec_example))
    filters_thresholds.


(** ** Thresholds with another snr floor *)


(** The end-to-end example with an snr that is not a number. *)
Definition nan_snr_alert : AlertProperties := {|
  psfFlux := 100; apFlux := 200; scienceFlux := 500; templateFlux := 200;
  snr := nan; band := VStr "r";
  ixx := 5; iyy := 3; ixy := 1;
  ixxPSF := 2; iyyPSF := 2; ixyPSF := 0;
  apFlux_flag := false; psfFlux_flag := false; pixelFlags_cr := false;
  pixelFlags_bad := false; pixelFlags_nodata := false;
  pixelFlags_interpolated := false; pixelFlags_saturated := false;
  pixelFlags_suspect := false
|}.

(** The dict of the end-to-end example with [None] for its psfFlux. *)
Definition psf_flux_none : store :=
  Store (<["lsst_diaSource_psfFlux" := VNone]> (to_props spec_example))
    filters_thresholds.
(** * Lemmas *)

(** ** Binary64 comparisons and signs *)

Lemma Prim2SF_zero : Prim2SF 0 = S754_zero false.
Proof. reflexivity. Qed.

Lemma ltb_pos_nonzero (x : float) : (0 <? x) = true → (x =? 0) = false.
Proof.
  rewrite FloatAxioms.ltb_spec, FloatAxioms.eqb_spec, Prim2SF_zero. unfold SFltb, SFeqb.
  by destruct (Prim2SF x) as [[] | [] | | [] ? ?].
Qed.

Lemma ltb_neg_nonzero (x : float) : (x <? 0) = true → (x =? 0) = false.
Proof.
  rewrite FloatAxioms.ltb_spec, FloatAxioms.eqb_spec, Prim2SF_zero. unfold SFltb, SFeqb.
  by destruct (Prim2SF x) as [[] | [] | | [] ? ?].
Qed.

Lemma SFleb_trans (x y z : spec_float) :
  SFleb x y = true → SFleb y z = true → SFleb x z = true.
Proof.
  unfold SFleb, SFcompare.
  destruct x as [[] | [] | | [] mx ex], y as [[] | [] | | [] my ey],
    z as [[] | [] | | [] mz ez]; try done.
  all: change (PosDef.Pos.compare_cont Eq) with Pos.compare.
  all: destruct (Z.compare_spec ex ey), (Z.compare_spec ey ez),
         (Z.compare_spec ex ez); try done; try lia; subst.
  all: destruct (Pos.compare_spec mx my), (Pos.compare_spec my mz),
         (Pos.compare_spec mx mz); try done; try lia.
Qed.

Lemma leb_trans (x y z : float) :
  (x <=? y) = true → (y <=? z) = true → (x <=? z) = true.
Proof. rewrite !FloatAxioms.leb_spec. apply SFleb_trans. Qed.


Lemma binary_round_aux_sign (s : bool) (m e : Z) (l : location) :
  match binary_round_aux prec emax s m e l with
  | S754_nan => True
  | S754_zero s' | S754_infinity s' | S754_finite s' _ _ => s' = s
  end.
Proof.
  unfold binary_round_aux.
  destruct (shr_fexp prec emax m e l) as [mrs' e'].
  destruct (shr_fexp prec emax _ e' loc_Exact) as [mrs'' e''].
  destruct (shr_m mrs''); [done | | done]. by destruct (Z.leb _ _).
Qed.

Lemma SFmul_self_nonneg (x : spec_float) : SFnonneg (SF64mul x x).
Proof.
  destruct x as [s | s | | s m e]; cbn; try done; try (by destruct s).
  pose proof (binary_round_aux_sign (xorb s s) (Z.pos (m * m)) (e + e) loc_Exact) as H.
  destruct (binary_round_aux _ _ _ _ _ _); cbn; try done; rewrite H; by destruct s.
Qed.

Lemma SFmul_nonneg (x y : spec_float) :
  SFnonneg x → SFnonneg y → SFnonneg (SF64mul x y).
Proof.
  destruct x as [sx | sx | | sx mx ex], y as [sy | sy | | sy my ey]; cbn;
    try done; try (by intros -> ->); try (by intros _ ->); try (by intros -> _).
  intros -> ->.
  pose proof (binary_round_aux_sign (xorb false false) (Z.pos (mx * my)) (ex + ey) loc_Exact) as H.
  destruct (binary_round_aux _ _ _ _ _ _); cbn; done.
Qed.

Lemma binary_round_sign (s : bool) (m : positive) (e : Z) :
  match binary_round prec emax s m e with
  | S754_nan => True
  | S754_zero s' | S754_infinity s' | S754_finite s' _ _ => s' = s
  end.
Proof.
  unfold binary_round. destruct (shl_align _ _ _) as [mz ez].
  apply binary_round_aux_sign.
Qed.

Lemma SFadd_nonneg (x y : spec_float) :
  SFnonneg x → SFnonneg y → SFnonneg (SF64add x y).
Proof.
  destruct x as [sx | sx | | sx mx ex], y as [sy | sy | | sy my ey]; cbn;
    try done; try (by intros -> ->); try (by intros _ ->); try (by intros -> _).
  - by destruct sx, sy.
  - intros -> ->. cbn.
    destruct (shl_align mx ex _) as [mx' ex'], (shl_align my ey _) as [my' ey'].
    cbn. pose proof (binary_round_sign false (mx' + my') (Z.min ex ey)) as H.
    change (Z.pos mx' + Z.pos my')%Z with (Z.pos (mx' + my')).
    unfold binary_normalize. destruct (binary_round _ _ _ _ _); cbn; done.
Qed.

Lemma SFnonneg_not_ltb_zero (x : spec_float) :
  SFnonneg x → SFltb x (S754_zero false) = false.
Proof. destruct x as [s | s | | s m e]; cbn; try done; by intros ->. Qed.

Lemma Prim2SF_four : SFnonneg (Prim2SF 4).
Proof. reflexivity. Qed.

(** The radicand of the ellipticity is never below zero. *)
Lemma radicand_not_negative (d z : float) :
  (d * d + 4 * (z * z) <? 0) = false.
Proof.
  rewrite FloatAxioms.ltb_spec, Prim2SF_zero, add_spec, !mul_spec.
  apply SFnonneg_not_ltb_zero, SFadd_nonneg; [apply SFmul_self_nonneg |].
  apply SFmul_nonneg; [apply Prim2SF_four | apply SFmul_self_nonneg].
Qed.

Lemma leb_not_ltb (x y : float) : (x <=? y) = true → (y <? x) = false.
Proof.
  rewrite FloatAxioms.ltb_spec, FloatAxioms.leb_spec.
  unfold SFltb, SFleb, SFcompare.
  destruct (Prim2SF x) as [[] | [] | | [] mx ex],
    (Prim2SF y) as [[] | [] | | [] my ey]; try done.
  all: destruct (Z.compare_spec ex ey), (Z.compare_spec ey ex); try done; try lia; subst.
  all: change (PosDef.Pos.compare_cont Eq) with Pos.compare.
  all: destruct (Pos.compare_spec mx my), (Pos.compare_spec my mx); try done; try lia.
Qed.

(** ** The monad *)

Lemma has_fields_to_props (a : AlertProperties) : has_fields (to_props a) a.
Proof. split; reflexivity. Qed.

Lemma bind_ok {A B : Type} (m : M A) (k : A → M B) (σ σ' : store) (x : A) :
  m σ = (Ok x, σ') → (m ≫= k) σ = k x σ'.
Proof. intros H. unfold mbind, M_bind. by rewrite H. Qed.

Lemma bind_raise {A B : Type} (m : M A) (k : A → M B) (σ σ' : store) (e : exn) :
  m σ = (Raise e, σ') → (m ≫= k) σ = (Raise e, σ').
Proof. intros H. unfold mbind, M_bind. by rewrite H. Qed.

Lemma subscript_ok (σ : store) (key : string) (v : value) :
  props σ !! key = Some v → subscript key σ = (Ok v, σ).
Proof. intros H. unfold subscript. by rewrite H. Qed.

(** ** The operators on numbers *)

Lemma all_pos_num (x y z : float) (σ : store) :
  and_then (and_then (py_gt (VNum x) 0) (py_gt (VNum y) 0)) (py_gt (VNum z) 0) σ
  = (Ok ((0 <? x) && (0 <? y) && (0 <? z)), σ).
Proof.
  unfold and_then, py_gt, mbind, M_bind, mret, M_ret. cbn.
  by destruct (0 <? x), (0 <? y).
Qed.

Lemma all_neg_num (x y z : float) (σ : store) :
  and_then (and_then (py_lt (VNum x) 0) (py_lt (VNum y) 0)) (py_lt (VNum z) 0) σ
  = (Ok ((x <? 0) && (y <? 0) && (z <? 0)), σ).
Proof.
  unfold and_then, py_lt, mbind, M_bind, mret, M_ret. cbn.
  by destruct (x <? 0), (y <? 0).
Qed.

Lemma py_div_num (x y : float) (σ : store) :
  (y =? 0) = false → py_div (VNum x) (VNum y) σ = (Ok (x / y), σ).
Proof. intros H. unfold py_div. cbn. by rewrite H. Qed.

Lemma py_sqrt_radicand (d z : float) (σ : store) :
  py_sqrt (d * d + 4 * (z * z)) σ = (Ok (sqrt (d * d + 4 * (z * z))), σ).
Proof. unfold py_sqrt. by rewrite radicand_not_negative. Qed.

(** ** The helper on numbers *)

Lemma _ellipticity_num (x y z : float) (σ : store) :
  _ellipticity (VNum x) (VNum y) (VNum z) σ
  = (if helper_overflows x y z then Raise OverflowError
     else Ok (ellipticity x y z), σ).
Proof.
  unfold _ellipticity, helper_overflows, ellipticity.
  unfold py_add, py_sub, py_pow2, py_eq, py_div. cbn [as_number].
  unfold mbind, M_bind, mret, M_ret, raise. cbn.
  destruct (x + y =? 0) eqn:Ht; [reflexivity |]. cbn.
  destruct (overflows (x - y)); [reflexivity |]. cbn.
  destruct (overflows z); [reflexivity |]. cbn.
  by rewrite py_sqrt_radicand.
Qed.

Lemma _ellipticity_num_raise (x y z : float) (σ : store) :
  helper_overflows x y z = true →
  _ellipticity (VNum x) (VNum y) (VNum z) σ = (Raise OverflowError, σ).
Proof. intros H. by rewrite _ellipticity_num, H. Qed.

Lemma _ellipticity_num_ok (x y z : float) (σ : store) :
  helper_overflows x y z = false →
  _ellipticity (VNum x) (VNum y) (VNum z) σ = (Ok (ellipticity x y z), σ).
Proof. intros H. by rewrite _ellipticity_num, H. Qed.

(** ** [evaluate] on the dict of a typed alert *)

Ltac step_reads :=
  repeat (first
    [ erewrite (bind_ok (subscript _)) by (apply subscript_ok; eassumption)
    | erewrite (bind_ok (read_threshold _)) by reflexivity
    | erewrite (bind_ok (flux_caps_get _)) by reflexivity
    | erewrite (bind_ok (py_le (VNum _) _)) by reflexivity
    | erewrite (bind_ok (py_ge (VNum _) _)) by reflexivity
    | erewrite (bind_ok (py_add (VNum _) (VNum _))) by reflexivity
    | rewrite (bind_ok _ _ _ _ _ (all_pos_num _ _ _ _))
    | rewrite (bind_ok _ _ _ _ _ (all_neg_num _ _ _ _)) ];
    cbv beta zeta).

Lemma gate_condition (cfg : Config) (a : AlertProperties) :
  any [VBool (apFlux_flag a); VBool (psfFlux_flag a); VBool (pixelFlags_cr a);
       VBool (pixelFlags_bad a); VBool (pixelFlags_nodata a);
       VBool (pixelFlags_interpolated a); VBool (pixelFlags_saturated a);
       VBool (pixelFlags_suspect a);
       VBool (snr a <=? snr_floor cfg);
       VBool (negb ((0 <? psfFlux a) && (0 <? apFlux a) && (0 <? scienceFlux a)
                    || (psfFlux a <? 0) && (apFlux a <? 0) && (scienceFlux a <? 0)))]
  = negb (quality_gate cfg a).
Proof.
  unfold any, quality_gate, any_flag, all_pos, all_neg. cbn [existsb truthy].
  rewrite orb_false_r, !negb_andb, !negb_involutive, !orb_assoc.
  reflexivity.
Qed.

Lemma evaluate_has_fields (σ : store) (a : AlertProperties) :
  has_fields (props σ) a → evaluate σ = (outcome (thresholds σ) a, σ).
Proof.
  intros []. unfold evaluate, outcome. step_reads.
  rewrite gate_condition.
  destruct (quality_gate _ a) eqn:Hq; cbn [negb andb]; [| reflexivity].
  unfold degeneracy_guard. cbn [py_eq as_number].
  destruct (psfFlux a =? 0) eqn:Hp; cbn [negb orb andb]; [reflexivity |].
  destruct (scienceFlux a =? 0) eqn:Hs; cbn [negb orb andb]; [reflexivity |].
  step_reads. cbn [py_eq as_number].
  destruct (ixxPSF a + iyyPSF a =? 0) eqn:Ht; cbn [negb andb]; [reflexivity |].
  rewrite (bind_ok _ _ _ _ _ (py_div_num _ _ _ Hp)).
  unfold squares_overflow.
  destruct (helper_overflows (ixx a) (iyy a) (ixy a)) eqn:Ho1; cbn [orb].
  { by rewrite (bind_raise _ _ _ _ _ (_ellipticity_num_raise _ _ _ _ Ho1)). }
  rewrite (bind_ok _ _ _ _ _ (_ellipticity_num_ok _ _ _ _ Ho1)).
  destruct (helper_overflows (ixxPSF a) (iyyPSF a) (ixyPSF a)) eqn:Ho2.
  { by rewrite (bind_raise _ _ _ _ _ (_ellipticity_num_raise _ _ _ _ Ho2)). }
  rewrite (bind_ok _ _ _ _ _ (_ellipticity_num_ok _ _ _ _ Ho2)).
  step_reads.
  rewrite (bind_ok _ _ _ _ _ (py_div_num _ _ _ Ht)).
  rewrite (bind_ok _ _ _ _ _ (py_div_num _ _ _ Hs)).
  step_reads.
  unfold flux_ext_cut, i_ext_cut, ellip_ext_cut, moving_object_cut, band_cap_cut.
  fold (flux_ext a) (i_ext a) (ellip_ext a) (temp_sci_flux_ratio a).
  destruct (flux_ext a <=? _); cbn [negb orb andb]; [reflexivity |].
  destruct (i_ext a <=? _); cbn [negb orb andb]; [reflexivity |].
  destruct (ellip_ext a <=? _); cbn [negb orb andb]; [reflexivity |].
  step_reads.
  destruct (temp_sci_flux_ratio a <=? _); cbn [negb orb andb]; [reflexivity |].
  step_reads. fold (cap_of (thresholds σ) (band a)).
  destruct (cap_of (thresholds σ) (band a)) as [c |]; [| reflexivity].
  step_reads. by destruct (c <=? templateFlux a).
Qed.

(** ** Read-only computations *)

Lemma read_only_ret {A : Type} (x : A) : read_only (mret x).
Proof. by intros σ. Qed.

Lemma read_only_raise {A : Type} (e : exn) : read_only (@raise A e).
Proof. by intros σ. Qed.

Lemma read_only_bind {A B : Type} (m : M A) (k : A → M B) :
  read_only m → (∀ x, read_only (k x)) → read_only (m ≫= k).
Proof.
  intros Hm Hk σ. unfold mbind, M_bind. specialize (Hm σ).
  destruct (m σ) as [[x | e] σ']; simpl in Hm; subst σ'; [apply Hk | done].
Qed.

Lemma read_only_subscript (key : string) : read_only (subscript key).
Proof. intros σ. unfold subscript. by destruct (props σ !! key). Qed.

Lemma read_only_read_threshold (field : Config → float) :
  read_only (read_threshold field).
Proof. by intros σ. Qed.

Lemma read_only_flux_caps_get (b : value) : read_only (flux_caps_get b).
Proof. by intros σ. Qed.

Ltac read_only_tac :=
  repeat first
    [ apply read_only_ret | apply read_only_raise | apply read_only_subscript
    | apply read_only_read_threshold | apply read_only_flux_caps_get
    | assumption
    | apply read_only_bind; [| intros ?]
    | match goal with
      | |- read_only (if ?b then _ else _) => destruct b
      | |- read_only (match ?x with _ => _ end) => destruct x
      end ].

Lemma read_only_py_gt (v : value) (c : float) : read_only (py_gt v c).
Proof. unfold py_gt. read_only_tac. Qed.

Lemma read_only_py_lt (v : value) (c : float) : read_only (py_lt v c).
Proof. unfold py_lt. read_only_tac. Qed.

Lemma read_only_py_le (v : value) (c : float) : read_only (py_le v c).
Proof. unfold py_le. read_only_tac. Qed.

Lemma read_only_py_ge (v : value) (c : float) : read_only (py_ge v c).
Proof. unfold py_ge. read_only_tac. Qed.

Lemma read_only_py_add (v w : value) : read_only (py_add v w).
Proof. unfold py_add. read_only_tac. Qed.

Lemma read_only_py_sub (v w : value) : read_only (py_sub v w).
Proof. unfold py_sub. read_only_tac. Qed.

Lemma read_only_py_div (v w : value) : read_only (py_div v w).
Proof. unfold py_div. read_only_tac. Qed.

Lemma read_only_py_pow2 (v : value) : read_only (py_pow2 v).
Proof. unfold py_pow2. read_only_tac. Qed.

Lemma read_only_py_sqrt (x : float) : read_only (py_sqrt x).
Proof. unfold py_sqrt. read_only_tac. Qed.

Lemma read_only_and_then (a b : M bool) :
  read_only a → read_only b → read_only (and_then a b).
Proof. intros Ha Hb. unfold and_then. read_only_tac. Qed.

Create HintDb read_only.

#[local] Hint Resolve read_only_ret read_only_raise read_only_subscript
  read_only_read_threshold read_only_flux_caps_get read_only_py_gt
  read_only_py_lt read_only_py_le read_only_py_ge read_only_py_add
  read_only_py_sub read_only_py_div read_only_py_pow2 read_only_py_sqrt
  read_only_and_then : read_only.

Ltac read_only_step :=
  first
    [ solve [auto with read_only]
    | apply read_only_bind; [| intros ?]
    | match goal with
      | |- read_only (if ?b then _ else _) => destruct b
      | |- read_only (match ?x with _ => _ end) => destruct x
      end ].

Lemma read_only__ellipticity (x y z : value) : read_only (_ellipticity x y z).
Proof. unfold _ellipticity. repeat read_only_step. Qed.

#[local] Hint Resolve read_only__ellipticity : read_only.

Lemma read_only_evaluate : read_only evaluate.
Proof. unfold evaluate. cbv zeta. repeat read_only_step. Qed.

Lemma read_only_evaluate_without_flux_branch :
  read_only evaluate_without_flux_branch.
Proof. unfold evaluate_without_flux_branch. cbv zeta. repeat read_only_step. Qed.

Lemma read_only_ok {A : Type} (m : M A) (σ σ' : store) (r : result A) :
  read_only m → m σ = (r, σ') → σ' = σ.
Proof. intros Hm H. specialize (Hm σ). rewrite H in Hm. done. Qed.

(** One step of a run: the first computation answers and the run goes on
    from the same store, or it raises and the run stops there. *)
Lemma bind_cases {A B : Type} (m : M A) (k : A → M B) (σ : store) :
  read_only m →
  (∃ x, m σ = (Ok x, σ) ∧ (m ≫= k) σ = k x σ)
  ∨ (∃ e, m σ = (Raise e, σ) ∧ (m ≫= k) σ = (Raise e, σ)).
Proof.
  intros Hm. unfold mbind, M_bind. specialize (Hm σ).
  destruct (m σ) as [[x | e] σ']; cbn in Hm; subst σ'; [left | right]; eauto.
Qed.

Lemma bind_ext {A B : Type} (m : M A) (k k' : A → M B) (σ : store) :
  (∀ x σ', m σ = (Ok x, σ') → k x σ' = k' x σ') →
  (m ≫= k) σ = (m ≫= k') σ.
Proof.
  intros H. unfold mbind, M_bind. destruct (m σ) as [[x | e] σ']; [by apply H | done].
Qed.

Lemma subscript_inv (key : string) (σ σ' : store) (v : value) :
  subscript key σ = (Ok v, σ') → props σ !! key = Some v.
Proof.
  unfold subscript. destruct (props σ !! key); [| discriminate].
  by intros [= ->].
Qed.

Lemma subscript_raise_inv (key : string) (σ σ' : store) (e : exn) :
  subscript key σ = (Raise e, σ') → e = KeyError key ∧ props σ !! key = None.
Proof.
  unfold subscript. destruct (props σ !! key); [discriminate |].
  by intros [= <-].
Qed.

(** ** What the operators can raise *)

Lemma raises_only_ret {A : Type} (P : exn → Prop) (x : A) :
  raises_only P (mret x).
Proof. intros σ e. discriminate. Qed.

Lemma raises_only_raise {A : Type} (P : exn → Prop) (e : exn) :
  P e → raises_only P (@raise A e).
Proof. intros He σ e' [= <-]. exact He. Qed.

Lemma raises_only_bind {A B : Type} (P : exn → Prop) (m : M A) (k : A → M B) :
  raises_only P m → (∀ x, raises_only P (k x)) → raises_only P (m ≫= k).
Proof.
  intros Hm Hk σ e. unfold mbind, M_bind. specialize (Hm σ).
  destruct (m σ) as [[x | e'] σ']; [apply Hk | cbn in *; by intros [= <-]; apply Hm].
Qed.

Lemma raises_only_subscript (key : string) :
  raises_only caller_error (subscript key).
Proof.
  intros σ e. unfold subscript. destruct (props σ !! key); [discriminate |].
  by intros [= <-].
Qed.

Ltac raises_only_tac :=
  repeat first
    [ apply raises_only_ret | apply raises_only_raise; exact I
    | assumption
    | apply raises_only_bind; [| intros ?]
    | match goal with
      | |- raises_only _ (if ?b then _ else _) => destruct b
      | |- raises_only _ (match ?x with _ => _ end) => destruct x
      end ].

Lemma raises_only_py_gt (v : value) (c : float) :
  raises_only caller_error (py_gt v c).
Proof. unfold py_gt. raises_only_tac. Qed.

Lemma raises_only_py_lt (v : value) (c : float) :
  raises_only caller_error (py_lt v c).
Proof. unfold py_lt. raises_only_tac. Qed.

Lemma raises_only_and_then (P : exn → Prop) (a b : M bool) :
  raises_only P a → raises_only P b → raises_only P (and_then a b).
Proof. intros Ha Hb. unfold and_then. raises_only_tac. Qed.

Lemma raises_only_all_pos (p a s : value) :
  raises_only caller_error
    (and_then (and_then (py_gt p 0) (py_gt a 0)) (py_gt s 0)).
Proof. repeat apply raises_only_and_then; apply raises_only_py_gt. Qed.

Lemma raises_only_all_neg (p a s : value) :
  raises_only caller_error
    (and_then (and_then (py_lt p 0) (py_lt a 0)) (py_lt s 0)).
Proof. repeat apply raises_only_and_then; apply raises_only_py_lt. Qed.

(** A step of a run whose first computation can only raise caller
    errors. *)
Lemma bind_cases_caller {A B : Type} (m : M A) (k : A → M B) (σ : store) :
  read_only m → raises_only caller_error m →
  (∃ x, m σ = (Ok x, σ) ∧ (m ≫= k) σ = k x σ)
  ∨ (∃ e, caller_error e ∧ (m ≫= k) σ = (Raise e, σ)).
Proof.
  intros Hro Hr. destruct (bind_cases m k σ Hro) as [H | (e & He & Hb)];
    [by left | right].
  exists e. split; [| exact Hb]. apply (Hr σ). by rewrite He.
Qed.

Ltac caller_step σ :=
  match goal with
  | |- context [(?m ≫= ?k) σ] =>
      let H := fresh "Hread" in
      destruct (bind_cases_caller m k σ) as [(? & H & ->) | (? & ? & ->)];
      [ auto with read_only
      | first [ apply raises_only_subscript | apply raises_only_all_pos
              | apply raises_only_all_neg ]
      | try apply subscript_inv in H; cbv beta
      | right; by eauto ]
  end.

(** Either every required key is in the dict, or [evaluate] raises a
    caller error. *)
Lemma evaluate_reads_all_keys (σ : store) :
  (∀ key, key ∈ required_fields → is_Some (props σ !! key))
  ∨ (∃ e, caller_error e ∧ evaluate σ = (Raise e, σ)).
Proof.
  unfold evaluate. do 22 caller_step σ.
  left. intros key Hkey. unfold required_fields in Hkey.
  repeat (apply elem_of_cons in Hkey as [-> | Hkey]; [by eexists |]).
  by apply elem_of_nil in Hkey.
Qed.

(** ** The quality gate and the degeneracy guard *)

Lemma all_pos_true_nonzero (p a s : value) (σ σ' : store) :
  and_then (and_then (py_gt p 0) (py_gt a 0)) (py_gt s 0) σ = (Ok true, σ') →
  py_eq p 0 = false ∧ py_eq s 0 = false.
Proof.
  unfold and_then, py_gt, py_eq, mbind, M_bind, mret, M_ret, raise.
  destruct (as_number p) as [x |]; cbn; [| discriminate].
  destruct (0 <? x) eqn:Hx; [| discriminate].
  destruct (as_number a) as [y |]; cbn; [| discriminate].
  destruct (0 <? y); [| discriminate].
  destruct (as_number s) as [z |]; cbn; [| discriminate].
  intros [= Hz]. split; by apply ltb_pos_nonzero.
Qed.

Lemma all_neg_true_nonzero (p a s : value) (σ σ' : store) :
  and_then (and_then (py_lt p 0) (py_lt a 0)) (py_lt s 0) σ = (Ok true, σ') →
  py_eq p 0 = false ∧ py_eq s 0 = false.
Proof.
  unfold and_then, py_lt, py_eq, mbind, M_bind, mret, M_ret, raise.
  destruct (as_number p) as [x |]; cbn; [| discriminate].
  destruct (x <? 0) eqn:Hx; [| discriminate].
  destruct (as_number a) as [y |]; cbn; [| discriminate].
  destruct (y <? 0); [| discriminate].
  destruct (as_number s) as [z |]; cbn; [| discriminate].
  intros [= Hz]. split; by apply ltb_neg_nonzero.
Qed.

Lemma any_false_last (l : list value) (b : bool) :
  any (l ++ [VBool (negb b)]) = false → b = true.
Proof.
  unfold any. rewrite existsb_app. intros H.
  apply orb_false_elim in H as [_ H]. cbn in H. by destruct b.
Qed.

(** The flux branch of the degeneracy guard is dead code. *)
Lemma evaluate_flux_branch_dead (σ : store) :
  evaluate σ = evaluate_without_flux_branch σ.
Proof.
  unfold evaluate, evaluate_without_flux_branch.
  apply bind_ext; intros psf_flux ? _.
  apply bind_ext; intros ap_flux ? _.
  apply bind_ext; intros science_flux ? _.
  do 9 (apply bind_ext; intros ? ? _).
  apply bind_ext; intros all_pos ? Hpos.
  apply bind_ext; intros all_neg ? Hneg.
  do 10 (apply bind_ext; intros ? ? _).
  match goal with |- (if any ?l then _ else _) _ = _ => destruct (any l) eqn:Hany end;
    [reflexivity |].
  apply (any_false_last [_; _; _; _; _; _; _; _; _]) in Hany.
  assert (Hnz : py_eq psf_flux 0 = false ∧ py_eq science_flux 0 = false).
  { destruct all_pos; [by apply all_pos_true_nonzero in Hpos |].
    destruct all_neg; [by apply all_neg_true_nonzero in Hneg | discriminate]. }
  destruct Hnz as [-> ->]. reflexivity.
Qed.

(** ** No division by zero, no square root below zero *)

Ltac not_zde_tac :=
  repeat first
    [ apply raises_only_ret
    | apply raises_only_raise; intros [|]; discriminate
    | assumption
    | apply raises_only_bind; [| intros ?]
    | match goal with
      | |- raises_only _ (if ?b then _ else _) => destruct b eqn:?
      | |- raises_only _ (match ?x with _ => _ end) => destruct x eqn:?
      end ].

Lemma not_zde_subscript (key : string) :
  raises_only (λ e, ¬ domain_error e) (subscript key).
Proof.
  intros σ e. unfold subscript. destruct (props σ !! key); [discriminate |].
  intros [= <-] [|]; discriminate.
Qed.

Lemma not_zde_read_threshold (field : Config → float) :
  raises_only (λ e, ¬ domain_error e) (read_threshold field).
Proof. intros σ e. discriminate. Qed.

Lemma not_zde_flux_caps_get (b : value) :
  raises_only (λ e, ¬ domain_error e) (flux_caps_get b).
Proof. intros σ e. discriminate. Qed.

Lemma not_zde_py_gt (v : value) (c : float) :
  raises_only (λ e, ¬ domain_error e) (py_gt v c).
Proof. unfold py_gt. not_zde_tac. Qed.

Lemma not_zde_py_lt (v : value) (c : float) :
  raises_only (λ e, ¬ domain_error e) (py_lt v c).
Proof. unfold py_lt. not_zde_tac. Qed.

Lemma not_zde_py_le (v : value) (c : float) :
  raises_only (λ e, ¬ domain_error e) (py_le v c).
Proof. unfold py_le. not_zde_tac. Qed.

Lemma not_zde_py_ge (v : value) (c : float) :
  raises_only (λ e, ¬ domain_error e) (py_ge v c).
Proof. unfold py_ge. not_zde_tac. Qed.

Lemma not_zde_py_add (v w : value) :
  raises_only (λ e, ¬ domain_error e) (py_add v w).
Proof. unfold py_add. not_zde_tac. Qed.

Lemma not_zde_py_sub (v w : value) :
  raises_only (λ e, ¬ domain_error e) (py_sub v w).
Proof. unfold py_sub. not_zde_tac. Qed.

Lemma not_zde_py_pow2 (v : value) :
  raises_only (λ e, ¬ domain_error e) (py_pow2 v).
Proof. unfold py_pow2. not_zde_tac. Qed.

(** [v / w] does not raise [ZeroDivisionError] once [w == 0.0] has
    answered [False]. *)
Lemma not_zde_py_div (v w : value) :
  py_eq w 0 = false → raises_only (λ e, ¬ domain_error e) (py_div v w).
Proof.
  unfold py_eq, py_div. intros H.
  destruct (as_number v), (as_number w) as [y |];
    try (apply raises_only_raise; intros [|]; discriminate).
  rewrite H. apply raises_only_ret.
Qed.

Create HintDb not_zde.

#[local] Hint Resolve not_zde_subscript not_zde_read_threshold
  not_zde_flux_caps_get not_zde_py_gt not_zde_py_lt not_zde_py_le
  not_zde_py_ge not_zde_py_add not_zde_py_sub not_zde_py_pow2
  raises_only_and_then raises_only_ret : not_zde.

Ltac not_zde_step :=
  first
    [ solve [auto with not_zde]
    | apply not_zde_py_div;
      first [ assumption
            | match goal with
              | H : _ || _ = false |- _ =>
                  apply orb_false_elim in H as [? ?]; assumption
              end ]
    | apply raises_only_bind; [| intros ?]
    | match goal with
      | |- raises_only _ (if ?b then _ else _) => destruct b eqn:?
      | |- raises_only _ (match ?x with _ => _ end) => destruct x eqn:?
      end ].

Lemma _ellipticity_numbers (x y z : value) (a b c : float) (σ : store) :
  as_number x = Some a → as_number y = Some b → as_number z = Some c →
  _ellipticity x y z σ = _ellipticity (VNum a) (VNum b) (VNum c) σ.
Proof.
  intros Hx Hy Hz. unfold _ellipticity, py_add, py_sub, py_pow2.
  by rewrite Hx, Hy, Hz.
Qed.

(** The helper raises nothing but [TypeError] and [OverflowError]. *)
Lemma _ellipticity_raises (x y z : value) (σ : store) (e : exn) :
  (_ellipticity x y z σ).1 = Raise e → e = TypeError ∨ e = OverflowError.
Proof.
  destruct (as_number x) as [a |] eqn:Hx, (as_number y) as [b |] eqn:Hy.
  - destruct (as_number z) as [c |] eqn:Hz.
    + rewrite (_ellipticity_numbers x y z a b c σ Hx Hy Hz), _ellipticity_num.
      destruct (helper_overflows a b c); cbn; [intros [= <-]; by right | discriminate].
    + unfold _ellipticity, py_add, py_sub, py_pow2, py_eq.
      rewrite Hx, Hy, Hz. unfold mbind, M_bind, mret, M_ret, raise. cbn.
      destruct (a + b =? 0); cbn; [discriminate |].
      destruct (overflows (a - b)); cbn; intros [= <-]; auto.
  - destruct x, y; try discriminate; cbn; intros [= <-]; by left.
  - destruct x, y; try discriminate; cbn; intros [= <-]; by left.
  - destruct x, y; try discriminate; cbn; intros [= <-]; by left.
Qed.

Lemma not_zde__ellipticity (x y z : value) :
  raises_only (λ e, ¬ domain_error e) (_ellipticity x y z).
Proof.
  intros σ e H. destruct (_ellipticity_raises x y z σ e H) as [-> | ->];
    intros [|]; discriminate.
Qed.

#[local] Hint Resolve not_zde__ellipticity : not_zde.

Lemma not_zde_evaluate : raises_only (λ e, ¬ domain_error e) evaluate.
Proof. unfold evaluate. cbv zeta. repeat not_zde_step. Qed.

(** ** Keys [evaluate] does not read *)

Lemma same_answer_ret {A : Type} (x : A) (σ σ' : store) :
  same_answer (mret x) σ σ'.
Proof. reflexivity. Qed.

Lemma same_answer_raise {A : Type} (e : exn) (σ σ' : store) :
  same_answer (@raise A e) σ σ'.
Proof. reflexivity. Qed.

Lemma same_answer_bind {A B : Type} (m : M A) (k : A → M B) (σ σ' : store) :
  read_only m → same_answer m σ σ' → (∀ x, same_answer (k x) σ σ') →
  same_answer (m ≫= k) σ σ'.
Proof.
  intros Hro Hm Hk. unfold same_answer, mbind, M_bind in *.
  pose proof (Hro σ) as H1. pose proof (Hro σ') as H2.
  destruct (m σ) as [[x | e] σ1], (m σ') as [[x' | e'] σ1'];
    cbn in *; subst; try discriminate.
  - injection Hm as ->. apply Hk.
  - by injection Hm as ->.
Qed.

Lemma same_answer_subscript (key : string) (σ σ' : store) :
  props σ !! key = props σ' !! key → same_answer (subscript key) σ σ'.
Proof.
  intros H. unfold same_answer, subscript. rewrite <- H.
  by destruct (props σ !! key).
Qed.

Lemma same_answer_read_threshold (field : Config → float) (σ σ' : store) :
  thresholds σ = thresholds σ' → same_answer (read_threshold field) σ σ'.
Proof. intros H. unfold same_answer, read_threshold. cbn. by rewrite H. Qed.

Lemma same_answer_flux_caps_get (b : value) (σ σ' : store) :
  thresholds σ = thresholds σ' → same_answer (flux_caps_get b) σ σ'.
Proof. intros H. unfold same_answer, flux_caps_get. cbn. by rewrite H. Qed.

Ltac same_answer_tac :=
  repeat first
    [ apply same_answer_ret | apply same_answer_raise | assumption
    | apply same_answer_bind; [solve [auto with read_only] | | intros ?]
    | match goal with
      | |- same_answer (if ?b then _ else _) _ _ => destruct b
      | |- same_answer (match ?x with _ => _ end) _ _ => destruct x
      end ].

Lemma same_answer_py_gt (v : value) (c : float) (σ σ' : store) :
  same_answer (py_gt v c) σ σ'.
Proof. unfold py_gt. same_answer_tac. Qed.

Lemma same_answer_py_lt (v : value) (c : float) (σ σ' : store) :
  same_answer (py_lt v c) σ σ'.
Proof. unfold py_lt. same_answer_tac. Qed.

Lemma same_answer_py_le (v : value) (c : float) (σ σ' : store) :
  same_answer (py_le v c) σ σ'.
Proof. unfold py_le. same_answer_tac. Qed.

Lemma same_answer_py_ge (v : value) (c : float) (σ σ' : store) :
  same_answer (py_ge v c) σ σ'.
Proof. unfold py_ge. same_answer_tac. Qed.

Lemma same_answer_py_add (v w : value) (σ σ' : store) :
  same_answer (py_add v w) σ σ'.
Proof. unfold py_add. same_answer_tac. Qed.

Lemma same_answer_py_sub (v w : value) (σ σ' : store) :
  same_answer (py_sub v w) σ σ'.
Proof. unfold py_sub. same_answer_tac. Qed.

Lemma same_answer_py_div (v w : value) (σ σ' : store) :
  same_answer (py_div v w) σ σ'.
Proof. unfold py_div. same_answer_tac. Qed.

Lemma same_answer_py_pow2 (v : value) (σ σ' : store) :
  same_answer (py_pow2 v) σ σ'.
Proof. unfold py_pow2. same_answer_tac. Qed.

Lemma same_answer_py_sqrt (x : float) (σ σ' : store) :
  same_answer (py_sqrt x) σ σ'.
Proof. unfold py_sqrt. same_answer_tac. Qed.

Lemma same_answer_and_then (a b : M bool) (σ σ' : store) :
  read_only a → same_answer a σ σ' → same_answer b σ σ' →
  same_answer (and_then a b) σ σ'.
Proof.
  intros Hro Ha Hb. unfold and_then.
  apply same_answer_bind; [done | done |]. intros []; [done | reflexivity].
Qed.

Ltac in_list :=
  repeat first [apply list_elem_of_here | apply list_elem_of_further].

Ltac same_answer_step Hp Ht :=
  first
    [ apply same_answer_ret
    | apply same_answer_py_gt | apply same_answer_py_lt
    | apply same_answer_py_le | apply same_answer_py_ge
    | apply same_answer_py_add | apply same_answer_py_sub
    | apply same_answer_py_div | apply same_answer_py_pow2
    | apply same_answer_py_sqrt
    | apply same_answer_read_threshold; exact Ht
    | apply same_answer_flux_caps_get; exact Ht
    | apply same_answer_subscript; apply Hp; in_list
    | apply same_answer_and_then; [solve [auto with read_only] | |]
    | apply same_answer_bind; [solve [repeat read_only_step] | | intros ?]
    | match goal with
      | |- same_answer (if ?b then _ else _) _ _ => destruct b
      | |- same_answer (match ?x with _ => _ end) _ _ => destruct x
      end ].

Lemma same_answer__ellipticity (x y z : value) (σ σ' : store) :
  same_answer (_ellipticity x y z) σ σ'.
Proof.
  unfold _ellipticity.
  repeat first
    [ apply same_answer_ret | apply same_answer_py_add | apply same_answer_py_sub
    | apply same_answer_py_div | apply same_answer_py_pow2
    | apply same_answer_py_sqrt
    | apply same_answer_bind; [solve [auto with read_only] | | intros ?]
    | match goal with
      | |- same_answer (if ?b then _ else _) _ _ => destruct b
      end ].
Qed.

Lemma same_answer_evaluate (σ σ' : store) :
  thresholds σ = thresholds σ' →
  (∀ key, key ∈ required_fields → props σ !! key = props σ' !! key) →
  same_answer evaluate σ σ'.
Proof.
  intros Ht Hp. unfold evaluate. cbv zeta.
  repeat first [apply same_answer__ellipticity | same_answer_step Hp Ht].
Qed.

(** ** The key a [KeyError] names *)

Lemma bind_subscript_missing {B : Type} (key : string) (k : value → M B) (σ : store) :
  props σ !! key = None → (subscript key ≫= k) σ = (Raise (KeyError key), σ).
Proof. intros H. unfold mbind, M_bind, subscript. by rewrite H. Qed.

Ltac read_present Hk :=
  first
    [ let x := fresh "x" in let Hx := fresh "Hx" in
      destruct (proj1 (proj2 Hk)) as [x Hx];
      [unfold numeric_fields; solve [in_list] |];
      rewrite (bind_ok _ _ _ _ _ (subscript_ok _ _ _ Hx))
    | let b := fresh "b" in let Hb := fresh "Hb" in
      destruct (proj2 (proj2 Hk)) as [b Hb];
      [unfold flag_fields; solve [in_list] |];
      rewrite (bind_ok _ _ _ _ _ (subscript_ok _ _ _ Hb))
    | let v := fresh "v" in let Hv := fresh "Hv" in
      destruct (proj1 Hk) as [v Hv];
      rewrite (bind_ok _ _ _ _ _ (subscript_ok _ _ _ Hv)) ];
  cbv beta;
  try rewrite (bind_ok _ _ _ _ _ (all_pos_num _ _ _ _));
  try rewrite (bind_ok _ _ _ _ _ (all_neg_num _ _ _ _));
  cbv beta.

(** ** Tighter and looser thresholds *)

Lemma leb_false_floor (x t t' : float) :
  (x <=? t) = false → (t' <=? t) = true → (x <=? t') = false.
Proof.
  intros H Ht. destruct (x <=? t') eqn:E; [| done].
  by rewrite (leb_trans x t' t E Ht) in H.
Qed.

Lemma leb_false_cap (c c' x : float) :
  (c <=? x) = false → (c <=? c') = true → (c' <=? x) = false.
Proof.
  intros H Hc. destruct (c' <=? x) eqn:E; [| done].
  by rewrite (leb_trans c c' x Hc E) in H.
Qed.

Lemma bind_ret {A B : Type} (x : A) (k : A → M B) (σ : store) :
  (mret x ≫= k) σ = k x σ.
Proof. reflexivity. Qed.

(** A step of a passing run, followed on a second store where the first
    computation answers alike. *)
Lemma pass_step {A B : Type} (m : M A) (k k' : A → M B) (σ σ' : store)
    (r : result B) :
  read_only m → same_answer m σ σ' →
  (m ≫= k) σ = (r, σ) → (∀ e, r ≠ Raise e) →
  ∃ x, k x σ = (r, σ) ∧ (m ≫= k') σ' = k' x σ'.
Proof.
  intros Hro Hsa H Hr. destruct (bind_cases m k σ Hro) as [(x & Hx & Hb) | (e & He & Hb)].
  - exists x. rewrite Hb in H. split; [exact H |].
    apply bind_ok. unfold same_answer in Hsa. rewrite Hx in Hsa. cbn in Hsa.
    pose proof (Hro σ') as Hσ'. destruct (m σ') as [r' σ'']. cbn in *. by subst.
  - rewrite Hb in H. injection H as <-. by destruct (Hr e).
Qed.

Ltac pass_same_answer :=
  first
    [ apply same_answer_subscript; reflexivity
    | apply same_answer_py_add | apply same_answer_py_div
    | apply same_answer__ellipticity
    | repeat first [ apply same_answer_and_then; [solve [auto with read_only] | |]
                   | apply same_answer_py_gt | apply same_answer_py_lt ] ].

Ltac pass_next H :=
  cbv beta zeta in H; cbv beta zeta;
  match type of H with
  | (read_threshold ?f ≫= ?k) ?σ = _ =>
      rewrite (bind_ok (read_threshold f) k σ σ _ eq_refl) in H;
      match goal with
      | |- (read_threshold f ≫= ?k') ?σ' = _ =>
          rewrite (bind_ok (read_threshold f) k' σ' σ' _ eq_refl)
      end
  | (if ?c then _ else _) _ = _ =>
      match goal with
      | |- (if c then _ else _) _ = _ => destruct c; [discriminate H |]
      end
  | (?m ≫= ?k) ?σ = _ =>
      match goal with
      | |- (m ≫= ?k') ?σ' = _ =>
          let H' := fresh "H" in
          destruct (pass_step m k k' σ σ' _
                      ltac:(solve [auto with read_only])
                      ltac:(pass_same_answer) H ltac:(discriminate))
            as (? & H' & ->);
          clear H; rename H' into H
      end
  end.

(** ** The cuts and their order *)



Lemma outcome_all_hold (cfg : Config) (a : AlertProperties) :
  outcome cfg a =
    if reaches_overflow cfg a then Raise OverflowError
    else Ok (if all_hold cuts cfg a then Some (features a) else None).
Proof.
  unfold outcome, reaches_overflow, all_hold, cuts. cbn [forallb].
  destruct (quality_gate cfg a); cbn [andb]; [| reflexivity].
  destruct (degeneracy_guard cfg a); cbn [andb]; [| reflexivity].
  destruct (squares_overflow a); [reflexivity |].
  by rewrite andb_true_r, !andb_assoc.
Qed.

Lemma evaluate_call (cfg : Config) (a : AlertProperties) :
  evaluate (call cfg a) = (outcome cfg a, call cfg a).
Proof. apply (evaluate_has_fields (call cfg a)), has_fields_to_props. Qed.

Lemma evaluate_call_pass (cfg : Config) (a : AlertProperties) :
  all_hold cuts cfg a = true → squares_overflow a = false →
  evaluate (call cfg a) = (Ok (Some (features a)), call cfg a).
Proof.
  intros Hall Ho. rewrite evaluate_call, outcome_all_hold.
  unfold reaches_overflow. by rewrite Ho, andb_false_r, Hall.
Qed.



(** ** The sample alerts *)

(** The end-to-end example of section 8 under the thresholds of
    [filters/extendedness.py], with the features as binary64 computes
    them. *)
Example spec_example_passes :
  evaluate (call filters_thresholds spec_example)
  = (Ok (Some {[ "snr" := VNum 20;
                 "flux_ext" := VNum 2;
                 "i_ext" := VNum 2;
                 "ellip_ext" := VNum 0.35355339059327379;
                 "temp_sci_flux_ratio" := VNum 0.40000000000000002 ]}),
     call filters_thresholds spec_example).
Proof. vm_compute. reflexivity. Qed.

(** The negative example of section 8. *)
Example spec_example_saturated_rejected :
  evaluate (call filters_thresholds spec_example_saturated)
  = (Ok None, call filters_thresholds spec_example_saturated).
Proof. vm_compute. reflexivity. Qed.

(** Under the thresholds of [src/lantern/filters/extendedness.py] the same
    alert fails the moving-object cut: 0.4 is not above 0.85. *)
Example spec_example_lantern_rejected :
  evaluate (call lantern_thresholds spec_example)
  = (Ok None, call lantern_thresholds spec_example).
Proof. vm_compute. reflexivity. Qed.


(** Rounding at a floor: with moments 0.1, 0.2 over a PSF of 0.1, 0.1 the
    quotient (ixx + iyy) / (ixxPSF + iyyPSF) is computed as
    1.5000000000000002, above the floor 1.5. *)
Example rounding_at_the_i_ext_floor :
  i_ext_cut filters_thresholds
    {| psfFlux := 100; apFlux := 200; scienceFlux := 500; templateFlux := 200;
       snr := 20; band := VStr "r";
       ixx := 0.1; iyy := 0.2; ixy := 1;
       ixxPSF := 0.1; iyyPSF := 0.1; ixyPSF := 0;
       apFlux_flag := false; psfFlux_flag := false; pixelFlags_cr := false;
       pixelFlags_bad := false; pixelFlags_nodata := false;
       pixelFlags_interpolated := false; pixelFlags_saturated := false;
       pixelFlags_suspect := false |} = true.
Proof. vm_compute. reflexivity. Qed.

(** A number where Python holds a bool, and a truthy flag that is no
    bool: the subscripts check no type. *)
Example bool_as_number :
  (evaluate (Store (<["lsst_diaSource_ixyPSF" := VBool false]>
                      (to_props spec_example)) filters_thresholds)).1
  = (evaluate (call filters_thresholds spec_example)).1.
Proof. vm_compute. reflexivity. Qed.

Example truthy_flag_rejects :
  (evaluate (Store (<["lsst_diaSource_pixelFlags_cr" := VStr "yes"]>
                      (to_props spec_example)) filters_thresholds)).1
  = Ok None.
Proof. vm_compute. reflexivity. Qed.

(** At the cap itself the alert is rejected; the cap of band r is the
    binary64 number nearest to 657111.2. *)
Example spec_example_at_cap_rejected :
  evaluate (call filters_thresholds
              (alert 100 200 500 657111.2 (VStr "r") false 5 3))
  = (Ok None,
     call filters_thresholds (alert 100 200 500 657111.2 (VStr "r") false 5 3)).
Proof. vm_compute. reflexivity. Qed.

(** The moving-object cut reads templateFlux too: far below the cap, a
    template flux of 100 against a science flux of 500 is rejected by it. *)
Example spec_example_low_template_rejected :
  evaluate (call filters_thresholds (alert 100 200 500 100 (VStr "r") false 5 3))
  = (Ok None, call filters_thresholds (alert 100 200 500 100 (VStr "r") false 5 3)).
Proof. vm_compute. reflexivity. Qed.

(** * The claims *)

(** ** Passing alerts *)




(** ** The order of the cuts *)




(** ** The flux-sign check *)

(** C3.  Whenever psfFlux, apFlux and scienceFlux are neither all
    strictly positive nor all strictly negative, [evaluate] rejects,
    whatever the other fields hold; and under each of the two shipped
    thresholds some all-positive triple passes and some all-negative
    triple passes. *)
Theorem flux_sign_check :
  (∀ (σ : store) (a : AlertProperties),
     has_fields (props σ) a →
     ¬ ((0 <? psfFlux a) = true ∧ (0 <? apFlux a) = true
        ∧ (0 <? scienceFlux a) = true) →
     ¬ ((psfFlux a <? 0) = true ∧ (apFlux a <? 0) = true
        ∧ (scienceFlux a <? 0) = true) →
     evaluate σ = (Ok None, σ))
  ∧ (∀ cfg : Config, cfg = filters_thresholds ∨ cfg = lantern_thresholds →
     (∃ (a : AlertProperties) (m : gmap string value),
        ((0 <? psfFlux a) = true ∧ (0 <? apFlux a) = true
         ∧ (0 <? scienceFlux a) = true)
        ∧ evaluate (call cfg a) = (Ok (Some m), call cfg a))
     ∧ (∃ (a : AlertProperties) (m : gmap string value),
        ((psfFlux a <? 0) = true ∧ (apFlux a <? 0) = true
         ∧ (scienceFlux a <? 0) = true)
        ∧ evaluate (call cfg a) = (Ok (Some m), call cfg a))).
Proof.
  split.
  - intros σ a Ha Hpos Hneg. rewrite (evaluate_has_fields σ a Ha).
    assert (Hq : quality_gate (thresholds σ) a = false).
    { unfold quality_gate, all_pos, all_neg.
      assert (Hs : (0 <? psfFlux a) && (0 <? apFlux a) && (0 <? scienceFlux a)
                   || (psfFlux a <? 0) && (apFlux a <? 0) && (scienceFlux a <? 0)
                   = false).
      { apply not_true_is_false. rewrite orb_true_iff, !andb_true_iff. tauto. }
      rewrite Hs. apply andb_false_r. }
    unfold outcome. by rewrite Hq.
  - intros cfg Hcfg. split.
    + exists bright_alert, (features bright_alert).
      split; [by vm_compute |].
      apply evaluate_call_pass; [| vm_compute; reflexivity].
      destruct Hcfg as [-> | ->]; vm_compute; reflexivity.
    + exists negative_alert, (features negative_alert).
      split; [by vm_compute |].
      apply evaluate_call_pass; [| vm_compute; reflexivity].
      destruct Hcfg as [-> | ->]; vm_compute; reflexivity.
Qed.

Lemma flux_sign_check_witness :
  has_fields (props (call filters_thresholds mixed_sign_alert)) mixed_sign_alert
  ∧ ¬ ((0 <? psfFlux mixed_sign_alert) = true
       ∧ (0 <? apFlux mixed_sign_alert) = true
       ∧ (0 <? scienceFlux mixed_sign_alert) = true)
  ∧ ¬ ((psfFlux mixed_sign_alert <? 0) = true
       ∧ (apFlux mixed_sign_alert <? 0) = true
       ∧ (scienceFlux mixed_sign_alert <? 0) = true)
  ∧ evaluate (call filters_thresholds mixed_sign_alert)
    = (Ok None, call filters_thresholds mixed_sign_alert).
Proof.
  assert (H1 : ¬ ((0 <? psfFlux mixed_sign_alert) = true
                  ∧ (0 <? apFlux mixed_sign_alert) = true
                  ∧ (0 <? scienceFlux mixed_sign_alert) = true)).
  { intros (_ & H & _). vm_compute in H. discriminate H. }
  assert (H2 : ¬ ((psfFlux mixed_sign_alert <? 0) = true
                  ∧ (apFlux mixed_sign_alert <? 0) = true
                  ∧ (scienceFlux mixed_sign_alert <? 0) = true)).
  { intros (H & _). vm_compute in H. discriminate H. }
  split; [apply has_fields_to_props |]. split; [exact H1 |]. split; [exact H2 |].
  exact (proj1 flux_sign_check (call filters_thresholds mixed_sign_alert)
           mixed_sign_alert (has_fields_to_props _) H1 H2).
Defined.

(** ** The ellipticity helper *)




(** The helper on the moments of section 8, and at a zero trace. *)
Example _ellipticity_spec_example :
  (_ellipticity (VNum 5) (VNum 3) (VNum 1) (call filters_thresholds spec_example)).1
  = Ok 0.35355339059327379.
Proof. vm_compute. reflexivity. Qed.

Example _ellipticity_zero_trace :
  (_ellipticity (VNum 2) (VNum (-2)) (VNum 7) (call filters_thresholds spec_example)).1
  = Ok 0.
Proof. vm_compute. reflexivity. Qed.

(** Squares that underflow: the helper returns 0.0 on the moments
    1e-200, 0, 0. *)
Example _ellipticity_underflow :
  (_ellipticity (VNum 1e-200) (VNum 0) (VNum 0)
     (call filters_thresholds spec_example)).1
  = Ok 0.
Proof. vm_compute. reflexivity. Qed.

(** ** The quality flags *)

(** C5.  If one of the eight quality flags of the alert is true,
    [evaluate] rejects, whatever the other fields hold. *)
Theorem flagged_alert_rejected (σ : store) (a : AlertProperties) :
  has_fields (props σ) a →
  apFlux_flag a = true ∨ psfFlux_flag a = true ∨ pixelFlags_cr a = true
  ∨ pixelFlags_bad a = true ∨ pixelFlags_nodata a = true
  ∨ pixelFlags_interpolated a = true ∨ pixelFlags_saturated a = true
  ∨ pixelFlags_suspect a = true →
  evaluate σ = (Ok None, σ).
Proof.
  intros Ha Hflag. rewrite (evaluate_has_fields σ a Ha).
  assert (Hany : any_flag a = true).
  { unfold any_flag. rewrite !orb_true_iff. tauto. }
  unfold outcome, quality_gate. by rewrite Hany.
Qed.

Lemma flagged_alert_rejected_witness :
  has_fields (props (call filters_thresholds spec_example_saturated))
    spec_example_saturated
  ∧ pixelFlags_saturated spec_example_saturated = true
  ∧ evaluate (call filters_thresholds spec_example_saturated)
    = (Ok None, call filters_thresholds spec_example_saturated).
Proof.
  split; [apply has_fields_to_props |]. split; [reflexivity |].
  apply (flagged_alert_rejected _ spec_example_saturated).
  - apply has_fields_to_props.
  - do 6 right. left. reflexivity.
Defined.

(** ** The cap of the band *)




(** ** Bands without a cap *)




(** A band that is no string, as a missing band would be read from JSON:
    [None] is no key of the caps either. *)
Example none_band_rejected :
  evaluate (call filters_thresholds (alert 100 200 500 450 VNone false 5 3))
  = (Ok None, call filters_thresholds (alert 100 200 500 450 VNone false 5 3)).
Proof. vm_compute. reflexivity. Qed.

(** ** Purity *)

(** C8.  [evaluate] returns the store it was given, dict and thresholds
    untouched, and a second call on that store returns what the first
    returned. *)
Theorem evaluate_pure (σ : store) :
  (evaluate σ).2 = σ
  ∧ props (evaluate σ).2 = props σ
  ∧ thresholds (evaluate σ).2 = thresholds σ
  ∧ evaluate (evaluate σ).2 = evaluate σ.
Proof.
  pose proof (read_only_evaluate σ) as H. by rewrite !H.
Qed.

(** ** Missing fields *)

(** C9.  If one of the required fields is absent from the dict,
    [evaluate] raises a caller error and does not return the rejection. *)
Theorem missing_field_raises (σ : store) (key : string) :
  key ∈ required_fields →
  props σ !! key = None →
  (∃ e, caller_error e ∧ evaluate σ = (Raise e, σ))
  ∧ evaluate σ ≠ (Ok None, σ).
Proof.
  intros Hkey Hnone.
  assert (H : ∃ e, caller_error e ∧ evaluate σ = (Raise e, σ)).
  { destruct (evaluate_reads_all_keys σ) as [Hall | H]; [| exact H].
    destruct (Hall key Hkey) as [v Hv]. congruence. }
  split; [exact H |]. destruct H as (e & _ & ->). discriminate.
Qed.

Lemma missing_field_raises_witness :
  ("lsst_diaSource_snr" ∈ required_fields
   ∧ props snr_missing !! "lsst_diaSource_snr" = None)
  ∧ (∃ e, caller_error e ∧ evaluate snr_missing = (Raise e, snr_missing))
  ∧ evaluate snr_missing ≠ (Ok None, snr_missing).
Proof.
  assert (Hkey : "lsst_diaSource_snr" ∈ required_fields).
  { unfold required_fields. do 4 apply list_elem_of_further.
    apply list_elem_of_here. }
  split; [split; [exact Hkey | reflexivity] |].
  exact (missing_field_raises snr_missing "lsst_diaSource_snr" Hkey eq_refl).
Defined.

(** The error for the sample dict without its snr is the [KeyError] of
    that key; an empty dict fails at the first subscript. *)
Example missing_snr_key_error :
  evaluate snr_missing = (Raise (KeyError "lsst_diaSource_snr"), snr_missing).
Proof. vm_compute. reflexivity. Qed.

Example empty_dict_key_error :
  evaluate (Store ∅ lantern_thresholds)
  = (Raise (KeyError "lsst_diaSource_psfFlux"), Store ∅ lantern_thresholds).
Proof. reflexivity. Qed.

(** A field of the wrong type: a flux that is a string raises
    [TypeError]. *)
Example string_flux_type_error :
  (evaluate (Store (<["lsst_diaSource_psfFlux" := VStr "100"]>
                      (to_props spec_example)) filters_thresholds)).1
  = Raise TypeError.
Proof. vm_compute. reflexivity. Qed.

(** ** The flux branch of the degeneracy guard *)

(** C10.  The flux branch of the degeneracy guard is dead: on every dict
    and under all thresholds, [evaluate] answers as it does with the lines
    [if psf_flux == 0.0 or science_flux == 0.0: return None] removed,
    because a quality gate that lets an alert through has seen fluxes that
    are all positive or all negative, so psfFlux and scienceFlux are not
    zero.  No division of [evaluate], in the features or in the helper,
    meets a zero divisor: [evaluate] never raises [ZeroDivisionError]. *)
Theorem degeneracy_flux_branch_dead :
  (∀ σ : store, evaluate σ = evaluate_without_flux_branch σ)
  ∧ (∀ (cfg : Config) (a : AlertProperties),
       quality_gate cfg a = true →
       (psfFlux a =? 0) = false ∧ (scienceFlux a =? 0) = false
       ∧ degeneracy_guard cfg a = negb (ixxPSF a + iyyPSF a =? 0))
  ∧ (∀ σ : store, (evaluate σ).1 ≠ Raise ZeroDivisionError).
Proof.
  split; [exact evaluate_flux_branch_dead |]. split.
  - intros cfg a Hq. unfold quality_gate in Hq.
    apply andb_prop in Hq as [_ Hsign].
    assert (H : (psfFlux a =? 0) = false ∧ (scienceFlux a =? 0) = false).
    { unfold all_pos, all_neg in Hsign.
      apply orb_prop in Hsign as [H | H];
        apply andb_prop in H as [H Hs]; apply andb_prop in H as [Hp _].
      - split; by apply ltb_pos_nonzero.
      - split; by apply ltb_neg_nonzero. }
    destruct H as [Hp Hs]. unfold degeneracy_guard. by rewrite Hp, Hs.
  - intros σ H. apply (not_zde_evaluate σ ZeroDivisionError H). by left.
Qed.

Lemma degeneracy_flux_branch_dead_witness :
  quality_gate filters_thresholds spec_example = true
  ∧ (psfFlux spec_example =? 0) = false ∧ (scienceFlux spec_example =? 0) = false
  ∧ degeneracy_guard filters_thresholds spec_example
    = negb (ixxPSF spec_example + iyyPSF spec_example =? 0).
Proof.
  assert (Hq : quality_gate filters_thresholds spec_example = true)
    by (vm_compute; reflexivity).
  split; [exact Hq |].
  exact (proj1 (proj2 degeneracy_flux_branch_dead) filters_thresholds
           spec_example Hq).
Defined.

(** * Further properties of the code *)

(** ** Exceptions of [evaluate] *)

(** X3.  On a dict that holds the twenty fields with values of their kind,
    [evaluate] returns ([None] or a dict) or raises [OverflowError], and
    raises it exactly when the quality gate and the degeneracy guard let
    the alert through to a square that overflows; on any dict it never
    raises the [ValueError] of [math.sqrt], because the radicand is a sum
    of a square and four times a square. *)
Theorem evaluate_exceptions (σ : store) :
  (∀ a : AlertProperties, has_fields (props σ) a →
     ((∃ r, evaluate σ = (Ok r, σ)) ∨ evaluate σ = (Raise OverflowError, σ))
     ∧ (evaluate σ = (Raise OverflowError, σ)
        ↔ reaches_overflow (thresholds σ) a = true))
  ∧ (evaluate σ).1 ≠ Raise ValueError.
Proof.
  split.
  - intros a Ha. rewrite (evaluate_has_fields σ a Ha), outcome_all_hold.
    destruct (reaches_overflow (thresholds σ) a).
    + split; [by right | done].
    + split; [left; by eexists | split; discriminate].
  - intros H. apply (not_zde_evaluate σ ValueError H). by right.
Qed.

Lemma evaluate_exceptions_witness :
  has_fields (props (call filters_thresholds overflow_alert)) overflow_alert
  ∧ reaches_overflow filters_thresholds overflow_alert = true
  ∧ (evaluate (call filters_thresholds overflow_alert)
     = (Raise OverflowError, call filters_thresholds overflow_alert)
     ↔ reaches_overflow (thresholds (call filters_thresholds overflow_alert))
         overflow_alert = true).
Proof.
  split; [apply has_fields_to_props |]. split; [vm_compute; reflexivity |].
  exact (proj2 (proj1 (evaluate_exceptions (call filters_thresholds overflow_alert))
                  overflow_alert (has_fields_to_props _))).
Defined.

(** ** Answers of [evaluate] *)



(** ** Tighter and looser thresholds *)

Lemma tighter_filters_loosest : tighter filters_thresholds loosest_thresholds.
Proof.
  unfold tighter.
  cbn [snr_floor flux_ext_floor i_ext_floor ellip_ext_floor
       temp_sci_flux_ratio_floor flux_caps filters_thresholds loosest_thresholds].
  do 5 (split; [vm_compute; reflexivity |]).
  intros b c Hb. exists c. split; [exact Hb |].
  unfold BAND_FLUX_THRESHOLDS in Hb.
  repeat (apply lookup_insert_Some in Hb as [[_ <-] | [_ Hb]];
          [vm_compute; reflexivity |]).
  apply lookup_singleton_Some in Hb as [_ <-]. vm_compute; reflexivity.
Qed.

(** X5.  Loosening the thresholds loses no alert: a dict that passes under
    thresholds passes, with the same returned dict, under any thresholds
    whose floors are no higher and whose caps are no lower. *)
Theorem pass_under_looser
    (p : gmap string value) (tight loose : Config) (m : gmap string value) :
  tighter tight loose →
  evaluate (Store p tight) = (Ok (Some m), Store p tight) →
  evaluate (Store p loose) = (Ok (Some m), Store p loose).
Proof.
  intros (Hs & Hf & Hi & He & Hr & Hc) H. unfold evaluate in *.
  do 23 pass_next H. cbn [thresholds] in *.
  (* snr <= floor *)
  unfold py_le at 1. unfold py_le at 1 in H.
  match type of H with context [as_number ?v] =>
    destruct (as_number v) as [s |]; [| discriminate H] end.
  rewrite bind_ret in H. cbv beta in H.
  match type of H with (if any ?l then _ else _) _ = _ =>
    destruct (any l) eqn:Hany; [discriminate H |] end.
  assert (Hlow : (s <=? snr_floor tight) = false).
  { unfold any in Hany. cbn [existsb] in Hany.
    do 8 (apply orb_false_elim in Hany as [_ Hany]).
    by apply orb_false_elim in Hany as [Hany _]. }
  rewrite Hlow in Hany.
  rewrite bind_ret. cbv beta.
  rewrite (leb_false_floor _ _ _ Hlow Hs), Hany.
  do 12 pass_next H. cbn [thresholds] in *.
  (* the three extendedness floors *)
  match type of H with (if ?a || ?b || ?c then _ else _) _ = _ =>
    destruct a eqn:Ha; [discriminate H |];
    destruct b eqn:Hb; [discriminate H |];
    destruct c eqn:Hcc; [discriminate H |] end.
  rewrite (leb_false_floor _ _ _ Ha Hf), (leb_false_floor _ _ _ Hb Hi),
    (leb_false_floor _ _ _ Hcc He).
  cbn [orb] in *. pass_next H. cbn [thresholds] in *.
  (* the ratio floor *)
  match type of H with (if ?a then _ else _) _ = _ =>
    destruct a eqn:Hra; [discriminate H |] end.
  rewrite (leb_false_floor _ _ _ Hra Hr).
  (* the cap *)
  unfold flux_caps_get in *. unfold mbind at 1, M_bind at 1.
  unfold mbind at 1, M_bind at 1 in H. cbn [thresholds flux_caps] in *.
  match type of H with context [match ?b with VStr _ => _ | _ => _ end] =>
    destruct b as [| | | b'] end; try discriminate H.
  destruct (flux_caps tight !! b') as [c |] eqn:Hcap; [| discriminate H].
  destruct (Hc b' c Hcap) as (c' & -> & Hcc').
  unfold py_ge in *.
  match type of H with context [as_number ?v] =>
    destruct (as_number v) as [t |]; [| discriminate H] end.
  unfold mbind, M_bind, mret, M_ret in *.
  destruct (c <=? t) eqn:Habove; [discriminate H |].
  rewrite (leb_false_cap _ _ _ Habove Hcc'). by injection H as ->.
Qed.

Lemma pass_under_looser_witness :
  (tighter filters_thresholds loosest_thresholds
   ∧ evaluate (Store (to_props spec_example) filters_thresholds)
     = (Ok (Some (features spec_example)),
        Store (to_props spec_example) filters_thresholds))
  ∧ evaluate (Store (to_props spec_example) loosest_thresholds)
    = (Ok (Some (features spec_example)),
       Store (to_props spec_example) loosest_thresholds).
Proof.
  assert (H : evaluate (Store (to_props spec_example) filters_thresholds)
              = (Ok (Some (features spec_example)),
                 Store (to_props spec_example) filters_thresholds))
    by (apply evaluate_call_pass; vm_compute; reflexivity).
  split; [split; [exact tighter_filters_loosest | exact H] |].
  exact (pass_under_looser _ _ _ _ tighter_filters_loosest H).
Defined.

(** ** Rejections *)

(** X7.  When the trace ixxPSF + iyyPSF of the PSF moments is zero,
    [evaluate] rejects: the division by the trace is never reached and
    nothing is raised. *)
Theorem zero_psf_trace_rejected (σ : store) (a : AlertProperties) :
  has_fields (props σ) a →
  (ixxPSF a + iyyPSF a =? 0) = true →
  evaluate σ = (Ok None, σ).
Proof.
  intros Ha Ht. rewrite (evaluate_has_fields σ a Ha). unfold outcome.
  assert (Hg : degeneracy_guard (thresholds σ) a = false).
  { unfold degeneracy_guard. rewrite Ht. apply andb_false_r. }
  by rewrite Hg, andb_false_r.
Qed.

Lemma zero_psf_trace_rejected_witness :
  (has_fields (props (call filters_thresholds zero_trace_alert)) zero_trace_alert
   ∧ (ixxPSF zero_trace_alert + iyyPSF zero_trace_alert =? 0) = true)
  ∧ evaluate (call filters_thresholds zero_trace_alert)
    = (Ok None, call filters_thresholds zero_trace_alert).
Proof.
  assert (Ht : (ixxPSF zero_trace_alert + iyyPSF zero_trace_alert =? 0) = true)
    by (vm_compute; reflexivity).
  split; [split; [apply has_fields_to_props | exact Ht] |].
  exact (zero_psf_trace_rejected (call filters_thresholds zero_trace_alert)
           zero_trace_alert (has_fields_to_props _) Ht).
Defined.



(** ** Keys [evaluate] does not read *)

(** X10.  [evaluate] reads the twenty required keys and the thresholds and
    nothing else: on two dicts that agree on those keys, under the same
    thresholds, it answers alike, whatever other keys the dicts hold. *)
Theorem other_keys_ignored (σ σ' : store) :
  thresholds σ = thresholds σ' →
  (∀ key, key ∈ required_fields → props σ !! key = props σ' !! key) →
  (evaluate σ).1 = (evaluate σ').1.
Proof.
  intros Ht Hp. exact (same_answer_evaluate σ σ' Ht Hp).
Qed.

Lemma other_keys_ignored_witness :
  (thresholds spec_example_extended
   = thresholds (call filters_thresholds spec_example)
   ∧ (∀ key, key ∈ required_fields →
        props spec_example_extended !! key
        = props (call filters_thresholds spec_example) !! key)
   ∧ props spec_example_extended !! "lsst_diaSource_ra" = Some (VNum 150)
   ∧ props (call filters_thresholds spec_example) !! "lsst_diaSource_ra" = None)
  ∧ (evaluate spec_example_extended).1
    = (evaluate (call filters_thresholds spec_example)).1.
Proof.
  assert (Hp : ∀ key, key ∈ required_fields →
                 props spec_example_extended !! key
                 = props (call filters_thresholds spec_example) !! key).
  { intros key Hkey. unfold spec_example_extended, call. cbn [props].
    apply lookup_insert_ne. intros <-. unfold required_fields in Hkey.
    repeat (apply elem_of_cons in Hkey as [Hkey | Hkey]; [discriminate |]).
    by apply elem_of_nil in Hkey. }
  split; [by repeat split |].
  exact (other_keys_ignored spec_example_extended
           (call filters_thresholds spec_example) eq_refl Hp).
Defined.

(** ** The key a [KeyError] names *)

(** X11.  The [KeyError] names the first missing key: when a required key
    is absent and the required keys that [evaluate] subscripts before it
    are present with values of their kind, [evaluate] raises the
    [KeyError] of that key. *)
Theorem first_missing_key_reported
    (σ : store) (pre post : list string) (key : string) :
  required_fields = pre ++ key :: post →
  (∀ k, k ∈ pre → well_typed_at (props σ) k) →
  props σ !! key = None →
  evaluate σ = (Raise (KeyError key), σ).
Proof.
  intros Heq Hpre Hnone. unfold evaluate.
  unfold required_fields in Heq.
  do 20 (destruct pre as [| k pre];
    [ cbn [app] in Heq; injection Heq as <- _;
      apply bind_subscript_missing; exact Hnone
    | cbn [app] in Heq; injection Heq as <- Heq;
      let Hk := fresh "Hk" in
      pose proof (Hpre _ (list_elem_of_here _ _)) as Hk;
      assert (Hpre' : ∀ k, k ∈ pre → well_typed_at (props σ) k)
        by (intros ? ?; apply Hpre; by apply list_elem_of_further);
      clear Hpre; rename Hpre' into Hpre;
      read_present Hk ]).
  destruct pre; discriminate.
Qed.

Lemma first_missing_key_reported_witness :
  (required_fields
   = [ "lsst_diaSource_psfFlux"; "lsst_diaSource_apFlux";
       "lsst_diaSource_scienceFlux"; "lsst_diaSource_templateFlux" ]
     ++ "lsst_diaSource_snr" :: drop 5 required_fields
   ∧ (∀ k, k ∈ [ "lsst_diaSource_psfFlux"; "lsst_diaSource_apFlux";
                 "lsst_diaSource_scienceFlux"; "lsst_diaSource_templateFlux" ] →
        well_typed_at (props snr_missing) k)
   ∧ props snr_missing !! "lsst_diaSource_snr" = None)
  ∧ evaluate snr_missing = (Raise (KeyError "lsst_diaSource_snr"), snr_missing).
Proof.
  assert (Hpre : ∀ k, k ∈ [ "lsst_diaSource_psfFlux"; "lsst_diaSource_apFlux";
                            "lsst_diaSource_scienceFlux";
                            "lsst_diaSource_templateFlux" ] →
                   well_typed_at (props snr_missing) k).
  { intros k Hk.
    repeat (apply elem_of_cons in Hk as [-> | Hk];
      [ split; [eexists; vm_compute; reflexivity |];
        split; [intros _; eexists; vm_compute; reflexivity |];
        intros Hf; unfold flag_fields in Hf;
        repeat (apply elem_of_cons in Hf as [Hf | Hf]; [discriminate |]);
        by apply elem_of_nil in Hf |]).
    by apply elem_of_nil in Hk. }
  split; [split; [reflexivity | split; [exact Hpre | reflexivity]] |].
  exact (first_missing_key_reported snr_missing
           [ "lsst_diaSource_psfFlux"; "lsst_diaSource_apFlux";
             "lsst_diaSource_scienceFlux"; "lsst_diaSource_templateFlux" ]
           (drop 5 required_fields) "lsst_diaSource_snr" eq_refl Hpre eq_refl).
Defined.

(** ** Not a number *)





(** The alert of section 8 with a NaN snr passes. *)
Example nan_snr_alert_passes :
  (evaluate (call filters_thresholds nan_snr_alert)).1
  = Ok (Some (features nan_snr_alert)).
Proof. vm_compute. reflexivity. Qed.

(** ** Fields of the wrong type *)

(** X13.  A psfFlux that is no number fails loudly: when the twenty
    required keys are present and psfFlux holds [None] or a string,
    [evaluate] raises [TypeError] at the sign test, whatever the other
    fields hold. *)
Theorem non_numeric_psf_flux_raises (σ : store) (v : value) :
  (∀ key, key ∈ required_fields → is_Some (props σ !! key)) →
  props σ !! "lsst_diaSource_psfFlux" = Some v →
  as_number v = None →
  evaluate σ = (Raise TypeError, σ).
Proof.
  intros Hall Hpsf Hnum. unfold evaluate.
  rewrite (bind_ok _ _ _ _ _ (subscript_ok _ _ _ Hpsf)). cbv beta.
  do 11 (match goal with
         | |- (subscript ?k ≫= _) σ = _ =>
             let w := fresh "w" in let Hw := fresh "Hw" in
             destruct (Hall k ltac:(unfold required_fields; in_list)) as [w Hw];
             rewrite (bind_ok _ _ _ _ _ (subscript_ok _ _ _ Hw)); cbv beta
         end).
  unfold and_then at 2. unfold py_gt at 1. rewrite Hnum. reflexivity.
Qed.

Lemma non_numeric_psf_flux_raises_witness :
  ((∀ key, key ∈ required_fields → is_Some (props psf_flux_none !! key))
   ∧ props psf_flux_none !! "lsst_diaSource_psfFlux" = Some VNone
   ∧ as_number VNone = None)
  ∧ evaluate psf_flux_none = (Raise TypeError, psf_flux_none).
Proof.
  assert (Hall : ∀ key, key ∈ required_fields →
                   is_Some (props psf_flux_none !! key)).
  { intros key Hkey. unfold required_fields in Hkey.
    repeat (apply elem_of_cons in Hkey as [-> | Hkey];
            [eexists; vm_compute; reflexivity |]).
    by apply elem_of_nil in Hkey. }
  split; [split; [exact Hall | by split] |].
  exact (non_numeric_psf_flux_raises psf_flux_none VNone Hall eq_refl eq_refl).
Defined.

(** The wrong type is not always seen: a templateFlux of [None] goes
    unnoticed on an alert that the quality gate rejects. *)
Example none_template_flux_unnoticed :
  (evaluate (Store (<["lsst_diaSource_templateFlux" := VNone]>
                      (to_props spec_example_saturated)) filters_thresholds)).1
  = Ok None.
Proof. vm_compute. reflexivity. Qed.
